(** * Smart Energy Tracker: a shallow embedding of [main.py]

    The program is a Flask application over one SQLite table.  The
    embedding keeps the Python functions under their own names
    ([init_db], [insert_data], [get_data], [submit], [visualize]) and
    runs them in a small state-and-exception monad over a [World] that
    holds the database file, the chart image and a log of effects.

    Conventions.
    - A form string is a Rocq [string] read as ASCII text.  Unicode
      decimal digits and Unicode blanks, which Python transliterates
      before parsing a float, are not represented.
    - A timestamp is the number of seconds since the Unix epoch ([Z]);
      SQLite stores the text [YYYY-MM-DD HH:MM:SS] and compares it as
      text, which agrees with the numeric order for years 0000-9999.
    - A Python float is kept as the decimal value that was read
      (sign, mantissa, power of ten), an infinity, or NaN.  Rounding to
      binary64 plays no part in what is proved here. *)

From Stdlib Require Import ZArith NArith List String Ascii Bool Lia Sorted.
From Stdlib Require Import DecimalString DecimalZ DecimalPos.
Import ListNotations.

Local Open Scope string_scope.
Local Open Scope Z_scope.

(* ===================================================================== *)
(** ** Characters and strings *)
(* ===================================================================== *)

Module Text.

Definition code (c : ascii) : N := N_of_ascii c.

(** [Py_ISSPACE]: blank, [\t], [\n], [\v], [\f], [\r]. *)
Definition is_space (c : ascii) : bool :=
  (N.eqb (code c) 32 || (N.leb 9 (code c) && N.leb (code c) 13))%bool.

Definition is_digit (c : ascii) : bool :=
  (N.leb 48 (code c) && N.leb (code c) 57)%bool.

Definition digit_value (c : ascii) : N := (code c - 48)%N.

(** [Py_TOLOWER] on ASCII letters. *)
Definition to_lower (c : ascii) : ascii :=
  if (N.leb 65 (code c) && N.leb (code c) 90)%bool
  then ascii_of_N (code c + 32) else c.

Fixpoint lower (s : string) : string :=
  match s with
  | EmptyString => EmptyString
  | String c t => String (to_lower c) (lower t)
  end.

Fixpoint lstrip (s : string) : string :=
  match s with
  | String c t => if is_space c then lstrip t else s
  | EmptyString => EmptyString
  end.

Fixpoint rstrip (s : string) : string :=
  match s with
  | EmptyString => EmptyString
  | String c t =>
      match rstrip t with
      | EmptyString => if is_space c then EmptyString else String c EmptyString
      | t' => String c t'
      end
  end.

Definition strip (s : string) : string := rstrip (lstrip s).

(** Longest prefix of decimal digits, and what follows it. *)
Fixpoint span_digits (s : string) : string * string :=
  match s with
  | String c t =>
      if is_digit c
      then let (d, r) := span_digits t in (String c d, r)
      else (EmptyString, s)
  | EmptyString => (EmptyString, EmptyString)
  end.

(** Longest prefix without a blank, and what follows it. *)
Fixpoint span_nonspace (s : string) : string * string :=
  match s with
  | String c t =>
      if is_space c then (EmptyString, s)
      else let (d, r) := span_nonspace t in (String c d, r)
  | EmptyString => (EmptyString, EmptyString)
  end.

Fixpoint digits_value_from (acc : N) (s : string) : N :=
  match s with
  | EmptyString => acc
  | String c t => digits_value_from (10 * acc + digit_value c)%N t
  end.

Definition digits_value (s : string) : N := digits_value_from 0 s.

Definition is_empty (s : string) : bool :=
  match s with EmptyString => true | _ => false end.

End Text.

(* ===================================================================== *)
(** ** Python values: [float], [str] of an [int] *)
(* ===================================================================== *)

Inductive pyfloat : Type :=
| PyNaN
| PyInf (negative : bool)
| PyDec (negative : bool) (mantissa : N) (exp10 : Z).

Definition is_nan (x : pyfloat) : bool :=
  match x with PyNaN => true | _ => false end.

Module PyFloat.
Import Text.

(** The pass that validates and removes digit-group underscores:
    an underscore must stand between two digits. *)
Fixpoint strip_underscores (prev : ascii) (s : string) : option string :=
  match s with
  | EmptyString => if Ascii.eqb prev "_" then None else Some EmptyString
  | String c t =>
      if Ascii.eqb c "_"
      then (if is_digit prev then strip_underscores c t else None)
      else if (Ascii.eqb prev "_" && negb (is_digit c))%bool then None
           else option_map (String c) (strip_underscores c t)
  end.

Definition split_sign (s : string) : bool * string :=
  match s with
  | String "-" t => (true, t)
  | String "+" t => (false, t)
  | _ => (false, s)
  end.

(** [digits [. [digits]] | . digits] then an optional exponent
    [(e|E) [sign] digits]; the whole text must be consumed.
    The result is the mantissa and the power of ten. *)
Definition parse_decimal (s : string) : option (N * Z) :=
  let (ip, r1) := span_digits s in
  let (fp, r2) :=
    match r1 with
    | String "." r => span_digits r
    | _ => (EmptyString, r1)
    end in
  if (is_empty ip && is_empty fp)%bool then None
  else
    let m := digits_value (ip ++ fp) in
    let scale := Z.of_nat (String.length fp) in
    match r2 with
    | EmptyString => Some (m, - scale)
    | String c r3 =>
        if (Ascii.eqb c "e" || Ascii.eqb c "E")%bool then
          let (eneg, r4) := split_sign r3 in
          let (ed, r5) := span_digits r4 in
          if (is_empty ed || negb (is_empty r5))%bool then None
          else
            let e := Z.of_N (digits_value ed) in
            Some (m, (if eneg then - e else e) - scale)
        else None
    end.

(** Python's [float(s)] on a [str] of ASCII characters; [None] stands
    for [ValueError].  The result is the decimal that was read: the
    rounding to binary64, with its overflow to an infinity and its
    underflow to zero, is not applied, so the value is the float itself
    only where the decimal is one a binary64 holds exactly. *)
Definition float (s : string) : option pyfloat :=
  match strip_underscores zero s with
  | None => None
  | Some t =>
      let (neg, body) := split_sign (strip t) in
      let lb := lower body in
      if (String.eqb lb "inf" || String.eqb lb "infinity")%bool
      then Some (PyInf neg)
      else if String.eqb lb "nan" then Some PyNaN
      else option_map (fun '(m, e) => PyDec neg m e) (parse_decimal body)
  end.

End PyFloat.

(** Python's [str(n)] for an [int]: a minus sign for a negative
    number, then the decimal digits without leading zeros.  Python
    refuses to write an integer of more than [int_max_str_digits]
    digits ([ValueError]); [str_int] stands for the conversion below
    that limit, and what is proved of a formatted integer is proved for
    integers below it. *)
Definition str_int (n : Z) : string := NilZero.string_of_int (Z.to_int n).

Definition int_max_str_digits : Z := 4300.

(** The integers a binary64 float holds exactly, up to 2^53: for these
    the float that [float] yields is the decimal that was read. *)
Definition exact_in_binary64 (n : Z) : Prop := Z.abs n <= 2 ^ 53.

(* ===================================================================== *)
(** ** SQLite: the table, row ids, bound parameters, date arithmetic *)
(* ===================================================================== *)

(** One row of [energy_usage (id, timestamp, usage)]. *)
Record Reading : Type := mkReading {
  id : Z;
  timestamp : Z;
  usage : pyfloat
}.

(** The table as [init_db] creates it: its rows in row-id order (the
    order of a scan of the table) and the entry that [AUTOINCREMENT]
    keeps in [sqlite_sequence], the largest row id ever handed out. *)
Record Table : Type := mkTable {
  rows : list Reading;
  seq : Z
}.

(** The file [energy.db]; [None] when it holds no [energy_usage] table. *)
Definition Database : Type := option Table.

Definition empty_table : Table := mkTable [] 0.

(** The two columns that the query of [get_data] selects. *)
Definition point (r : Reading) : Z * pyfloat := (timestamp r, usage r).

Inductive sqlval : Type :=
| SqlNull
| SqlReal (x : pyfloat).

(** The two kinds of [sqlite3.Error] that occur here. *)
Inductive sqlite_error : Type :=
| OperationalError      (* I/O fault, lock, missing table, no row id left *)
| IntegrityError.       (* a constraint failed *)

Module Sqlite.
Import Text.

Definition MAX_ROWID : Z := 9223372036854775807.

(** How the [sqlite3] module binds a Python float: NaN becomes NULL. *)
Definition bind_float (x : pyfloat) : sqlval :=
  if is_nan x then SqlNull else SqlReal x.

Fixpoint max_rowid (l : list Reading) : Z :=
  match l with
  | [] => 0
  | r :: t => Z.max (id r) (max_rowid t)
  end.

(** The row id an [AUTOINCREMENT] insert picks: one more than the
    largest id ever used; none is left once that reached the maximum. *)
Definition next_rowid (t : Table) : option Z :=
  let m := Z.max (seq t) (max_rowid (rows t)) in
  if MAX_ROWID <=? m then None else Some (m + 1).

(** The row that [INSERT INTO energy_usage (usage) VALUES (?)] adds
    at time [clock], or the error of the statement: no row id left,
    or NULL in the [NOT NULL] column. *)
Definition insert_usage (clock : Z) (u : pyfloat) (t : Table)
  : sqlite_error + Table :=
  match next_rowid t with
  | None => inl OperationalError
  | Some i =>
      match bind_float u with
      | SqlNull => inl IntegrityError
      | SqlReal x => inr (mkTable (rows t ++ [mkReading i clock x]) i)
      end
  end.

(** Date modifiers, for the texts [get_data] builds: a signed whole
    number up to the first blank, blanks, then the unit [day] or
    [days].  The result is NULL ([None]) when the number does not
    parse, when it is outside the limit for days, or when the date
    leaves the range of Julian day numbers SQLite supports. *)
Definition DAY_LIMIT : Z := 5373485.
Definition SECONDS_PER_DAY : Z := 86400.
Definition MIN_TIME : Z := -210866760000.
Definition MAX_TIME : Z := 253402300799.

Definition valid_time (t : Z) : bool := (MIN_TIME <=? t) && (t <=? MAX_TIME).

Definition atoi (num : string) : option Z :=
  match num with
  | String "+" t => option_map Z.of_uint (NilZero.uint_of_string t)
  | _ => option_map Z.of_int (NilZero.int_of_string num)
  end.

Definition is_day_unit (u : string) : bool :=
  let l := lower u in (String.eqb l "day" || String.eqb l "days")%bool.

Definition datetime_now (now : Z) (modifier : string) : option Z :=
  let (num, rest) := span_nonspace modifier in
  match atoi num with
  | None => None
  | Some r =>
      if (is_day_unit (lstrip rest) && (- DAY_LIMIT <? r) && (r <? DAY_LIMIT))%bool
      then let t := now + r * SECONDS_PER_DAY in
           if valid_time t then Some t else None
      else None
  end.

(** [SELECT timestamp, usage FROM energy_usage WHERE timestamp >= ?c]:
    a scan in row-id order; a NULL bound selects nothing. *)
Fixpoint select_since (cutoff : Z) (l : list Reading) : list (Z * pyfloat) :=
  match l with
  | [] => []
  | r :: t =>
      if cutoff <=? timestamp r
      then point r :: select_since cutoff t
      else select_since cutoff t
  end.

Definition select_where (cutoff : option Z) (l : list Reading) : list (Z * pyfloat) :=
  match cutoff with
  | None => []
  | Some c => select_since c l
  end.

End Sqlite.

(* ===================================================================== *)
(** ** Exceptions, the world, and the monad the handlers run in *)
(* ===================================================================== *)

Inductive exn : Type :=
| Sqlite3Error (k : sqlite_error)
| ValueError
| BadRequestKeyError (key : string)   (* werkzeug: a [KeyError] *)
| PandasDatabaseError                 (* pandas wraps a failed execute; an [OSError] *)
| OtherError.                         (* anything else, e.g. raised while drawing *)

(** The classes named in the [except] clauses of the program. *)
Inductive exn_class : Type :=
| cls_sqlite3_Error
| cls_ValueError
| cls_Exception.

Definition isinstance (e : exn) (c : exn_class) : bool :=
  match c, e with
  | cls_Exception, _ => true
  | cls_sqlite3_Error, Sqlite3Error _ => true
  | cls_ValueError, ValueError => true
  | _, _ => false
  end.

(** A pandas [DataFrame], as far as the program looks at it. *)
Record DataFrame : Type := mkDataFrame {
  columns : list string;
  records : list (Z * pyfloat)
}.

(** [df.empty]: some axis has length zero. *)
Definition DataFrame_empty (df : DataFrame) : bool :=
  match columns df, records df with
  | [], _ => true
  | _, [] => true
  | _, _ => false
  end.

Inductive message : Type :=
| msg_initialized
| msg_inserted (u : pyfloat)
| msg_insert_error (e : exn)
| msg_retrieve_error (e : exn)
| msg_visualize_error (e : exn).

(** What a request does to the outside, in order. *)
Inductive event : Type :=
| ev_create_table
| ev_insert (u : pyfloat)            (* the INSERT statement was executed *)
| ev_select (modifier : string)      (* the SELECT statement was executed *)
| ev_savefig (path : string) (points : list (Z * pyfloat))
| ev_print (m : message).

Record World : Type := mkWorld {
  db : Database;                          (* what is committed to energy.db *)
  txn : option Table;                     (* the open transaction, if any *)
  image : option (list (Z * pyfloat));    (* static/usage_plot.png *)
  log : list event
}.

(** What the surroundings decide for one request: the clock and the
    faults that the storage and the plotting library may raise. *)
Record Env : Type := mkEnv {
  now : Z;
  insert_fault : bool;          (* the INSERT, when executed, meets an I/O fault or a lock *)
  query_fault : option exn;     (* what the query raises, if it fails *)
  render_fault : bool           (* drawing or saving the figure fails *)
}.

Definition M (A : Type) : Type := World -> (A + exn) * World.

Definition ret {A} (a : A) : M A := fun w => (inl a, w).

Definition raise {A} (e : exn) : M A := fun w => (inr e, w).

Definition bind {A B} (m : M A) (k : A -> M B) : M B :=
  fun w =>
    match m w with
    | (inl a, w') => k a w'
    | (inr e, w') => (inr e, w')
    end.

Declare Scope py_scope.
Delimit Scope py_scope with py.
Notation "x <- m ;; k" := (bind m (fun x => k))
  (at level 61, m at next level, right associativity) : py_scope.
Notation "m ;;; k" := (bind m (fun _ => k))
  (at level 61, right associativity) : py_scope.
Local Open Scope py_scope.

(** [try: body / except cls as e: handler e]. *)
Definition try_except {A} (body : M A) (cls : exn_class) (handler : exn -> M A) : M A :=
  fun w =>
    match body w with
    | (inr e, w') => if isinstance e cls then handler e w' else (inr e, w')
    | r => r
    end.

Definition emit (ev : event) : M unit :=
  fun w => (inl tt, mkWorld (db w) (txn w) (image w) (log w ++ [ev])).

Definition print (m : message) : M unit := emit (ev_print m).

(** The table a statement on the connection sees and writes: the open
    transaction when there is one, the committed file otherwise. *)
Definition current_table (w : World) : Database :=
  match txn w with
  | Some t => Some t
  | None => db w
  end.

Definition write_table (t : Table) : M unit :=
  fun w => (inl tt, mkWorld (db w) (Some t) (image w) (log w)).

(** [conn.commit()]. *)
Definition conn_commit : M unit :=
  fun w =>
    match txn w with
    | Some t => (inl tt, mkWorld (Some t) None (image w) (log w))
    | None => (inl tt, w)
    end.

Definition conn_rollback : M unit :=
  fun w => (inl tt, mkWorld (db w) None (image w) (log w)).

(** [sqlite3.connect('energy.db')]: a new connection has no open
    transaction.  The requests covered are those whose connection
    opens; a file that cannot be opened is not represented, so every
    fault of a request is a fault of its statement. *)
Definition connect : M unit :=
  fun w => (inl tt, mkWorld (db w) None (image w) (log w)).

(** [with sqlite3.connect('energy.db') as conn: body]: commit when the
    body ends normally, roll back and re-raise when it raises. *)
Definition with_connection {A} (body : M A) : M A :=
  fun w =>
    match body (snd (connect w)) with
    | (inl a, w') => (inl a, snd (conn_commit w'))
    | (inr e, w') => (inr e, snd (conn_rollback w'))
    end.

(* ===================================================================== *)
(** ** Statements executed on the connection *)
(* ===================================================================== *)

(** [CREATE TABLE IF NOT EXISTS energy_usage (...)]. *)
Definition execute_create_table : M unit :=
  emit ev_create_table ;;;
  fun w =>
    match current_table w with
    | Some _ => ret tt w
    | None => write_table empty_table w
    end.

(** [INSERT INTO energy_usage (usage) VALUES (?)] with [usage] bound:
    [id] comes from [AUTOINCREMENT], [timestamp] from
    [DEFAULT CURRENT_TIMESTAMP], and [usage] is [NOT NULL]. *)
Definition execute_insert (e : Env) (u : pyfloat) : M unit :=
  emit (ev_insert u) ;;;
  fun w =>
    if insert_fault e then raise (Sqlite3Error OperationalError) w
    else
      match current_table w with
      | None => raise (Sqlite3Error OperationalError) w
      | Some t =>
          match Sqlite.insert_usage (now e) u t with
          | inl k => raise (Sqlite3Error k) w
          | inr t' => write_table t' w
          end
      end.

(** [pd.read_sql_query(query, conn, params=(param,))] for the query
    [SELECT timestamp, usage FROM energy_usage
     WHERE timestamp >= datetime('now', ?)]. *)
Definition read_sql_query (e : Env) (param : string) : M DataFrame :=
  emit (ev_select param) ;;;
  match query_fault e with
  | Some ex => raise ex
  | None =>
      fun w =>
        match current_table w with
        | None => raise PandasDatabaseError w
        | Some t =>
            ret (mkDataFrame ["timestamp"; "usage"]
                   (Sqlite.select_where (Sqlite.datetime_now (now e) param) (rows t))) w
        end
  end.

(* ===================================================================== *)
(** ** The functions of [main.py] *)
(* ===================================================================== *)

Definition init_db : M unit :=
  with_connection execute_create_table ;;;
  print msg_initialized.

(** The [with] block of [insert_data]: the write itself. *)
Definition insert_data_body (e : Env) (usage : pyfloat) : M unit :=
  with_connection
    (execute_insert e usage ;;;
     conn_commit ;;;
     print (msg_inserted usage)).

Definition insert_data (e : Env) (usage : pyfloat) : M unit :=
  try_except
    (insert_data_body e usage)
    cls_sqlite3_Error
    (fun ex => print (msg_insert_error ex)).

(** The parameter [f'-{days} days']. *)
Definition days_modifier (days : Z) : string :=
  "-" ++ str_int days ++ " days".

Definition get_data_default_days : Z := 7.

(** The [with] block of [get_data]: the query itself. *)
Definition get_data_body (e : Env) (days : Z) : M DataFrame :=
  with_connection (read_sql_query e (days_modifier days)).

Definition get_data (e : Env) (days : Z) : M DataFrame :=
  try_except
    (get_data_body e days)
    cls_sqlite3_Error
    (fun ex =>
       print (msg_retrieve_error ex) ;;;
       ret (mkDataFrame [] [])).

(** A Flask response: the JSON object and the status code. *)
Record Response : Type := mkResponse {
  body : list (string * string);
  status_code : Z
}.

Definition jsonify (d : list (string * string)) : Response := mkResponse d 200.

Definition with_status (r : Response) (code : Z) : Response :=
  mkResponse (body r) code.

(** [request.form]: the fields in the order sent; a key may repeat. *)
Definition MultiDict : Type := list (string * string).

Fixpoint form_get (key : string) (form : MultiDict) : option string :=
  match form with
  | [] => None
  | (k, v) :: rest => if String.eqb k key then Some v else form_get key rest
  end.

(** [request.form[key]]. *)
Definition form_getitem (form : MultiDict) (key : string) : M string :=
  match form_get key form with
  | Some v => ret v
  | None => raise (BadRequestKeyError key)
  end.

(** [float(s)], raising [ValueError]. *)
Definition py_float (s : string) : M pyfloat :=
  match PyFloat.float s with
  | Some x => ret x
  | None => raise ValueError
  end.

Definition submit_success : Response :=
  jsonify [("status", "success"); ("message", "Data added successfully!")].

Definition submit_invalid : Response :=
  with_status
    (jsonify [("status", "error");
              ("message", "Invalid input! Please enter a numeric value.")])
    400.

Definition submit (e : Env) (form : MultiDict) : M Response :=
  try_except
    (s <- form_getitem form "usage" ;;
     usage <- py_float s ;;
     insert_data e usage ;;;
     ret submit_success)
    cls_ValueError
    (fun _ => ret submit_invalid).

Definition image_path : string := "static/usage_plot.png".

(** Lines 86 to 97: the figure is drawn from the two columns and saved
    over [image_path]; a fault of the plotting library leaves the file
    as it was. *)
Definition render (e : Env) (df : DataFrame) : M unit :=
  if render_fault e then raise OtherError
  else
    fun w =>
      (inl tt,
       mkWorld (db w) (txn w) (Some (records df))
               (log w ++ [ev_savefig image_path (records df)])).

Definition visualize_no_data : Response :=
  with_status
    (jsonify [("status", "error");
              ("message", "No data available for visualization.")])
    400.

Definition visualize_failed : Response :=
  with_status
    (jsonify [("status", "error");
              ("message", "Failed to generate visualization.")])
    500.

Definition visualize_success : Response :=
  jsonify [("status", "success"); ("image_path", image_path)].

Definition visualize (e : Env) : M Response :=
  try_except
    (df <- get_data e get_data_default_days ;;
     if DataFrame_empty df then ret visualize_no_data
     else
       render e df ;;;
       ret visualize_success)
    cls_Exception
    (fun ex =>
       print (msg_visualize_error ex) ;;;
       ret visualize_failed).

(** Requests served one after the other, each under its own
    surroundings. *)
Inductive Request : Type :=
| POST_submit (form : MultiDict)
| GET_visualize.

Definition serve (e : Env) (r : Request) : M Response :=
  match r with
  | POST_submit form => submit e form
  | GET_visualize => visualize e
  end.

Fixpoint run (reqs : list (Env * Request)) (w : World) : World :=
  match reqs with
  | [] => w
  | (e, r) :: rest => run rest (snd (serve e r w))
  end.

(** The process as it starts: no database file content, no image. *)
Definition boot : World := mkWorld None None None [].

Definition started : World := snd (init_db boot).

(** ** What the claims observe *)

Definition reading_count (w : World) : nat :=
  match db w with
  | Some t => List.length (rows t)
  | None => 0%nat
  end.

Definition stored_rows (w : World) : list Reading :=
  match db w with
  | Some t => rows t
  | None => []
  end.

(** Row ids grow along the table; timestamps do not go back along it. *)
Definition ids_increasing (l : list Reading) : Prop :=
  StronglySorted (fun a b => id a < id b) l.

Definition timestamps_ascending (l : list Reading) : Prop :=
  StronglySorted (fun a b => timestamp a <= timestamp b) l.

Definition points_ascending (l : list (Z * pyfloat)) : Prop :=
  StronglySorted (fun p q => fst p <= fst q) l.

Definition is_select (ev : event) : bool :=
  match ev with ev_select _ => true | _ => false end.

Definition is_insert (ev : event) : bool :=
  match ev with ev_insert _ => true | _ => false end.

Definition is_savefig (ev : event) : bool :=
  match ev with ev_savefig _ _ => true | _ => false end.

Definition insert_attempts (l : list event) : nat :=
  List.length (filter is_insert l).

Definition calm (clock : Z) : Env := mkEnv clock false None false.

(** The outcome of the INSERT of [insert_data] on the committed file. *)
Definition insert_outcome (e : Env) (u : pyfloat) (d : Database)
  : sqlite_error + Table :=
  if insert_fault e then inl OperationalError
  else
    match d with
    | None => inl OperationalError
    | Some t => Sqlite.insert_usage (now e) u t
    end.

(** A text of blanks only. *)
Fixpoint blank (s : string) : bool :=
  match s with
  | EmptyString => true
  | String c t => (Text.is_space c && blank t)%bool
  end.

(** Surroundings with one fault each. *)
Definition faulty_insert (clock : Z) : Env := mkEnv clock true None false.

Definition faulty_query (clock : Z) : Env :=
  mkEnv clock false (Some (Sqlite3Error OperationalError)) false.

(** Two submissions one hour apart, the clock of the server having been
    set back between them. *)
Definition set_back : World :=
  run [(calm 1793664000, POST_submit [("usage", "1")]);
       (calm 1793660400, POST_submit [("usage", "2")])]
      started.

(* ===================================================================== *)
(** ** The page's request body and the form the server reads from it *)
(* ===================================================================== *)

Module UrlForm.

(** [s.split(sep)]: the pieces between the separators, at least one. *)
Fixpoint split_on (sep : ascii) (s : string) : list string :=
  match s with
  | EmptyString => [EmptyString]
  | String c t =>
      if Ascii.eqb c sep then EmptyString :: split_on sep t
      else
        match split_on sep t with
        | p :: ps => String c p :: ps
        | [] => [String c EmptyString]
        end
  end.

(** [s.split('=', 1)]: the text before the first [=], and the text
    after it when there is one. *)
Fixpoint split_first (sep : ascii) (s : string) : string * option string :=
  match s with
  | EmptyString => (EmptyString, None)
  | String c t =>
      if Ascii.eqb c sep then (EmptyString, Some t)
      else let (k, v) := split_first sep t in (String c k, v)
  end.

Fixpoint plus_to_space (s : string) : string :=
  match s with
  | EmptyString => EmptyString
  | String c t => String (if Ascii.eqb c "+" then " "%char else c) (plus_to_space t)
  end.

Definition hex_value (c : ascii) : option N :=
  let n := Text.code c in
  if (N.leb 48 n && N.leb n 57)%bool then Some (n - 48)%N
  else if (N.leb 65 n && N.leb n 70)%bool then Some (n - 55)%N
  else if (N.leb 97 n && N.leb n 102)%bool then Some (n - 87)%N
  else None.

(** Percent-decoding.  A [%] followed by two hexadecimal digits stands
    for that byte, any other [%] for itself.  [None] marks a text that
    is not covered: an escape of a byte above 127 gives a character
    outside ASCII or, when it is no UTF-8, stays as the escape, and
    neither is followed here. *)
Fixpoint unquote (s : string) : option string :=
  match s with
  | EmptyString => Some EmptyString
  | String c t =>
      if Ascii.eqb c "%" then
        match t with
        | String h (String l rest) =>
            match hex_value h, hex_value l with
            | Some a, Some b =>
                if (16 * a + b <? 128)%N
                then option_map (String (ascii_of_N (16 * a + b))) (unquote rest)
                else None
            | _, _ => option_map (String c) (unquote t)
            end
        | _ => option_map (String c) (unquote t)
        end
      else option_map (String c) (unquote t)
  end.

Definition decode (s : string) : option string := unquote (plus_to_space s).

(** The fields of a body of type [application/x-www-form-urlencoded],
    blank values kept. *)
Fixpoint parse_pairs (pieces : list string) : option MultiDict :=
  match pieces with
  | [] => Some []
  | p :: rest =>
      if Text.is_empty p then parse_pairs rest
      else
        let (k, v) := split_first "=" p in
        match decode k, decode (match v with Some x => x | None => EmptyString end),
              parse_pairs rest with
        | Some k', Some v', Some fields => Some ((k', v') :: fields)
        | _, _, _ => None
        end
  end.

Definition parse_qsl (body : string) : option MultiDict :=
  parse_pairs (split_on "&" body).

(** The body the script of the page sends: [`usage=${usage}`]. *)
Definition page_body (typed : string) : string := "usage=" ++ typed.

End UrlForm.

(** A text in which the character [c] does not occur. *)
Definition free_of (c : ascii) (s : string) : Prop :=
  ~ In c (list_ascii_of_string s).

(** Whether the usage field of a request is there and parses. *)
Definition parses (q : Request) : bool :=
  match q with
  | POST_submit form =>
      match form_get "usage" form with
      | Some s => match PyFloat.float s with Some _ => true | None => false end
      | None => false
      end
  | GET_visualize => false
  end.

Definition parsing_posts (reqs : list (Env * Request)) : nat :=
  List.length (filter (fun eq => parses (snd eq)) reqs).

(** The clocks of the requests do not go back. *)
Definition clocks_ascending (reqs : list (Env * Request)) : Prop :=
  StronglySorted (fun a b => now (fst a) <= now (fst b)) reqs.

(** The ids 1, 2, ..., n. *)
Definition first_ids (n : nat) : list Z := map Z.of_nat (List.seq 1 n).

(** The keys of a JSON object. *)
Definition json_get (key : string) (d : list (string * string)) : option string :=
  form_get key d.

Definition wrapped_query_fault (clock : Z) : Env :=
  mkEnv clock false (Some PandasDatabaseError) false.

Definition faulty_render (clock : Z) : Env := mkEnv clock false None true.

(** Three submissions and a request for the chart, the clock moving on. *)
Definition steady_day : list (Env * Request) :=
  [(calm 1793664000, POST_submit [("usage", "1.5")]);
   (calm 1793664000, POST_submit [("usage", "nan")]);
   (calm 1793667600, GET_visualize);
   (calm 1793671200, POST_submit [("usage", "2")])].

(** A table whose ids are 1 to n with the sequence entry at n. *)
Definition numbered (t : Table) : Prop :=
  map id (rows t) = first_ids (List.length (rows t)) /\
  seq t = Z.of_nat (List.length (rows t)).

(** A text of decimal digits only. *)
Definition all_digits (s : string) : Prop :=
  forall c, In c (list_ascii_of_string s) -> Text.is_digit c = true.

Ltac run_monad :=
  unfold try_except, with_connection, bind, ret, raise, print, emit,
    connect, conn_commit, conn_rollback, write_table, current_table;
  cbn [db txn image log fst snd].

(* ===================================================================== *)
(** ** Lemmas on texts and on the date parameter *)
(* ===================================================================== *)

Section TextLemmas.
Import Text.

Lemma uint_string_digits :
  forall d c, In c (list_ascii_of_string (NilEmpty.string_of_uint d)) ->
              is_digit c = true.
Proof.
  induction d; simpl; intros c H; try contradiction;
    destruct H as [H | H]; try (subst c; reflexivity); auto.
Qed.

Lemma nilzero_uint_string_digits :
  forall d c, In c (list_ascii_of_string (NilZero.string_of_uint d)) ->
              is_digit c = true.
Proof.
  intros d c H. destruct d; try exact (uint_string_digits _ _ H).
  simpl in H. destruct H as [H | []]. subst c. reflexivity.
Qed.

Lemma digit_not_space : forall c, is_digit c = true -> is_space c = false.
Proof.
  intros c. unfold is_digit, is_space.
  rewrite !andb_true_iff, !N.leb_le. intros [H1 H2].
  apply orb_false_iff. split.
  - apply N.eqb_neq. lia.
  - apply andb_false_iff. right. apply N.leb_gt. lia.
Qed.

(** A run of characters that are no blanks, followed by a blank. *)
Lemma span_nonspace_app :
  forall a b,
    (forall c, In c (list_ascii_of_string a) -> is_space c = false) ->
    span_nonspace (a ++ String " " b) = (a, String " " b).
Proof.
  induction a as [| c a IH]; intros b H; simpl.
  - reflexivity.
  - rewrite (H c (or_introl eq_refl)).
    rewrite IH; [reflexivity |].
    intros c' Hc'. apply H. right. exact Hc'.
Qed.

Lemma uint_of_string_minus :
  forall t, NilZero.uint_of_string (String "-" t) = None.
Proof.
  intros t. unfold NilZero.uint_of_string. simpl.
  destruct (NilEmpty.uint_of_string t); reflexivity.
Qed.

End TextLemmas.

(** What SQLite makes of the parameter that [get_data] sends: for a
    count of days that is not negative it is the clock moved back by
    that many days, as long as the date stays in range; for a negative
    count the text is [--n days], which is no modifier, and the bound
    is NULL. *)
Lemma datetime_now_days_modifier :
  forall clock days,
    Sqlite.datetime_now clock (days_modifier days) =
    if ((0 <=? days) && (days <? Sqlite.DAY_LIMIT)
        && Sqlite.valid_time (clock - Sqlite.SECONDS_PER_DAY * days))%bool
    then Some (clock - Sqlite.SECONDS_PER_DAY * days)
    else None.
Proof.
  intros clock days. unfold days_modifier, Sqlite.datetime_now.
  assert (Hsp : Text.span_nonspace ("-" ++ str_int days ++ " days")
                = (String "-" (str_int days), " days")).
  { change ("-" ++ str_int days ++ " days")
      with ((String "-" (str_int days)) ++ String " " "days").
    apply span_nonspace_app.
    intros c [Hc | Hc]; [subst c; reflexivity |].
    unfold str_int in Hc. destruct days as [| p | p]; simpl in Hc.
    - destruct Hc as [Hc | []]. subst c. reflexivity.
    - apply digit_not_space. apply (nilzero_uint_string_digits (Pos.to_uint p)).
      exact Hc.
    - destruct Hc as [Hc | Hc]; [subst c; reflexivity |].
      apply digit_not_space. apply (nilzero_uint_string_digits (Pos.to_uint p)).
      exact Hc. }
  rewrite Hsp. clear Hsp.
  destruct days as [| p | p].
  - (* zero *) reflexivity.
  - (* positive *)
    assert (Hat : Sqlite.atoi (String "-" (str_int (Z.pos p))) = Some (Z.neg p)).
    { unfold Sqlite.atoi, str_int. simpl NilZero.int_of_string.
      simpl Z.to_int. simpl NilZero.string_of_int.
      rewrite NilZero.usu.
      - simpl. f_equal.
        change (Z.of_int (Z.to_int (Z.neg p)) = Z.neg p). apply DecimalZ.of_to.
      - intro Hn. pose proof (DecimalPos.Unsigned.of_to p) as Hp.
        rewrite Hn in Hp. discriminate Hp. }
    rewrite Hat.
    change (Sqlite.is_day_unit (Text.lstrip " days")) with true.
    replace (clock + Z.neg p * Sqlite.SECONDS_PER_DAY)
      with (clock - Sqlite.SECONDS_PER_DAY * Z.pos p) by lia.
    assert (H0 : (0 <=? Z.pos p) = true) by (apply Z.leb_le; lia).
    assert (H1 : (- Sqlite.DAY_LIMIT <? Z.neg p) = (Z.pos p <? Sqlite.DAY_LIMIT)).
    { destruct (Z.ltb_spec (Z.pos p) Sqlite.DAY_LIMIT);
        [apply Z.ltb_lt | apply Z.ltb_ge]; lia. }
    assert (H2 : (Z.neg p <? Sqlite.DAY_LIMIT) = true).
    { apply Z.ltb_lt. unfold Sqlite.DAY_LIMIT. lia. }
    rewrite H0, H1, H2. cbn [andb]. rewrite andb_true_r.
    destruct (Z.pos p <? Sqlite.DAY_LIMIT); cbn [andb]; reflexivity.
  - (* negative *)
    assert (Hat : Sqlite.atoi (String "-" (str_int (Z.neg p))) = None).
    { unfold Sqlite.atoi, str_int. simpl Z.to_int. simpl NilZero.string_of_int.
      unfold NilZero.int_of_string. simpl Ascii.eqb.
      rewrite uint_of_string_minus. reflexivity. }
    rewrite Hat. reflexivity.
Qed.

(* ===================================================================== *)
(** ** How each function runs *)
(* ===================================================================== *)

Lemma app_two : forall (A : Type) (l : list A) (a b : A),
    ((l ++ [a]) ++ [b] = l ++ [a; b])%list.
Proof. intros. rewrite <- app_assoc. reflexivity. Qed.

Lemma insert_data_body_run :
  forall e u w,
    insert_data_body e u w =
    match insert_outcome e u (db w) with
    | inr t' =>
        (inl tt,
         mkWorld (Some t') None (image w)
                 (log w ++ [ev_insert u; ev_print (msg_inserted u)]))
    | inl k =>
        (inr (Sqlite3Error k),
         mkWorld (db w) None (image w) (log w ++ [ev_insert u]))
    end.
Proof.
  intros e u w. unfold insert_data_body, execute_insert, insert_outcome.
  run_monad.
  destruct (insert_fault e); [reflexivity |].
  destruct (db w) as [t |]; [| reflexivity].
  destruct (Sqlite.insert_usage (now e) u t) as [k | t']; cbn [db txn image log].
  - reflexivity.
  - rewrite app_two. reflexivity.
Qed.

Lemma insert_data_run :
  forall e u w,
    insert_data e u w =
    (inl tt,
     match insert_outcome e u (db w) with
     | inr t' =>
         mkWorld (Some t') None (image w)
                 (log w ++ [ev_insert u; ev_print (msg_inserted u)])
     | inl k =>
         mkWorld (db w) None (image w)
                 (log w ++ [ev_insert u;
                            ev_print (msg_insert_error (Sqlite3Error k))])
     end).
Proof.
  intros e u w. unfold insert_data, try_except.
  rewrite insert_data_body_run.
  destruct (insert_outcome e u (db w)) as [k | t'].
  - cbn [isinstance]. unfold print, emit. cbn [db txn image log].
    rewrite app_two. reflexivity.
  - reflexivity.
Qed.

Lemma submit_run :
  forall e form w,
    submit e form w =
    match form_get "usage" form with
    | None => (inr (BadRequestKeyError "usage"), w)
    | Some s =>
        match PyFloat.float s with
        | None => (inl submit_invalid, w)
        | Some u => (inl submit_success, snd (insert_data e u w))
        end
    end.
Proof.
  intros e form w. unfold submit, try_except, bind, form_getitem, py_float.
  destruct (form_get "usage" form) as [s |]; [| reflexivity].
  unfold ret at 1.
  destruct (PyFloat.float s) as [u |]; [| reflexivity].
  unfold ret at 1. rewrite insert_data_run. reflexivity.
Qed.

Lemma get_data_run :
  forall e days w,
    get_data e days w =
    let sent := (log w ++ [ev_select (days_modifier days)])%list in
    match query_fault e with
    | Some ex =>
        if isinstance ex cls_sqlite3_Error
        then (inl (mkDataFrame [] []),
              mkWorld (db w) None (image w)
                      (sent ++ [ev_print (msg_retrieve_error ex)]))
        else (inr ex, mkWorld (db w) None (image w) sent)
    | None =>
        match db w with
        | None => (inr PandasDatabaseError, mkWorld (db w) None (image w) sent)
        | Some t =>
            (inl (mkDataFrame ["timestamp"; "usage"]
                    (Sqlite.select_where
                       (Sqlite.datetime_now (now e) (days_modifier days))
                       (rows t))),
             mkWorld (db w) None (image w) sent)
        end
    end.
Proof.
  intros e days w. unfold get_data, get_data_body, read_sql_query.
  run_monad.
  destruct (query_fault e) as [ex |].
  - run_monad. destruct (isinstance ex cls_sqlite3_Error); reflexivity.
  - destruct (db w) as [t |]; reflexivity.
Qed.

Lemma visualize_run :
  forall e w,
    visualize e w =
    match get_data e get_data_default_days w with
    | (inl df, w1) =>
        if DataFrame_empty df then (inl visualize_no_data, w1)
        else if render_fault e
             then (inl visualize_failed,
                   mkWorld (db w1) (txn w1) (image w1)
                           (log w1 ++ [ev_print (msg_visualize_error OtherError)]))
             else (inl visualize_success,
                   mkWorld (db w1) (txn w1) (Some (records df))
                           (log w1 ++ [ev_savefig image_path (records df)]))
    | (inr ex, w1) =>
        (inl visualize_failed,
         mkWorld (db w1) (txn w1) (image w1)
                 (log w1 ++ [ev_print (msg_visualize_error ex)]))
    end.
Proof.
  intros e w. unfold visualize, try_except, bind.
  destruct (get_data e get_data_default_days w) as [[df | ex] w1].
  - destruct (DataFrame_empty df); [reflexivity |].
    unfold render. destruct (render_fault e); reflexivity.
  - reflexivity.
Qed.

Lemma insert_attempts_app :
  forall l1 l2,
    insert_attempts (l1 ++ l2) = (insert_attempts l1 + insert_attempts l2)%nat.
Proof.
  intros l1 l2. unfold insert_attempts.
  rewrite filter_app, length_app. reflexivity.
Qed.

Lemma insert_usage_rows :
  forall clock u t t',
    Sqlite.insert_usage clock u t = inr t' ->
    is_nan u = false /\
    Z.max (seq t) (Sqlite.max_rowid (rows t)) < Sqlite.MAX_ROWID /\
    seq t' = Z.max (seq t) (Sqlite.max_rowid (rows t)) + 1 /\
    rows t' = (rows t ++ [mkReading (seq t') clock u])%list.
Proof.
  intros clock u t t'. unfold Sqlite.insert_usage, Sqlite.next_rowid, Sqlite.bind_float.
  destruct (Z.leb_spec Sqlite.MAX_ROWID (Z.max (seq t) (Sqlite.max_rowid (rows t))))
    as [Hfull | Hroom]; [discriminate |].
  destruct u; cbn [is_nan]; intros H; inversion H; subst t'; cbn [rows seq];
    repeat split; auto.
Qed.

Lemma insert_usage_ok :
  forall clock u t,
    is_nan u = false ->
    Z.max (seq t) (Sqlite.max_rowid (rows t)) < Sqlite.MAX_ROWID ->
    exists t', Sqlite.insert_usage clock u t = inr t'.
Proof.
  intros clock u t Hu Hroom.
  unfold Sqlite.insert_usage, Sqlite.next_rowid, Sqlite.bind_float.
  destruct (Z.leb_spec Sqlite.MAX_ROWID (Z.max (seq t) (Sqlite.max_rowid (rows t))));
    [lia |].
  rewrite Hu. eexists. reflexivity.
Qed.

(* ===================================================================== *)
(** ** POST /submit *)
(* ===================================================================== *)

(** C1, as amended. When the usage field parses as a number and the
    insert raises a [sqlite3.Error], [insert_data] catches the error and
    prints it, and the route answers with the success acknowledgment;
    the stored table is unchanged, and the INSERT was executed once, with
    no second attempt. *)
Theorem C1_storage_error_swallowed :
  forall e form w s u ex,
    form_get "usage" form = Some s ->
    PyFloat.float s = Some u ->
    fst (insert_data_body e u w) = inr ex ->
    isinstance ex cls_sqlite3_Error = true ->
    fst (submit e form w) = inl submit_success /\
    db (snd (submit e form w)) = db w /\
    log (snd (submit e form w)) =
      (log w ++ [ev_insert u; ev_print (msg_insert_error ex)])%list /\
    insert_attempts (log (snd (submit e form w))) = S (insert_attempts (log w)).
Proof.
  intros e form w s u ex Hform Hfloat Hraise _.
  rewrite submit_run, Hform, Hfloat, insert_data_run.
  rewrite insert_data_body_run in Hraise.
  destruct (insert_outcome e u (db w)) as [k | t']; cbn [fst snd] in *.
  - inversion Hraise; subst ex. cbn [db log].
    repeat split; try reflexivity.
    rewrite insert_attempts_app. cbn. lia.
  - discriminate Hraise.
Qed.

Lemma C1_storage_error_swallowed_witness :
  fst (submit (faulty_insert 1793664000) [("usage", "3.5")] started)
    = inl submit_success /\
  db (snd (submit (faulty_insert 1793664000) [("usage", "3.5")] started))
    = db started.
Proof.
  pose proof (C1_storage_error_swallowed
                (faulty_insert 1793664000) [("usage", "3.5")] started
                "3.5" (PyDec false 35 (-1)) (Sqlite3Error OperationalError)
                eq_refl eq_refl eq_refl eq_refl) as H.
  split; [exact (proj1 H) | exact (proj1 (proj2 H))].
Defined.

(** C1 as it is stated fails: the field parses, the insert raises a
    [sqlite3.Error], and the client receives the success acknowledgment
    with status 200. *)
Lemma C1_counterexample :
  PyFloat.float "3.5" = Some (PyDec false 35 (-1)) /\
  fst (insert_data_body (faulty_insert 1793664000) (PyDec false 35 (-1)) started)
    = inr (Sqlite3Error OperationalError) /\
  fst (submit (faulty_insert 1793664000) [("usage", "3.5")] started)
    = inl submit_success /\
  status_code submit_success = 200.
Proof. repeat split; reflexivity. Qed.

(** C3, as amended. When the usage field parses as a number that is not
    NaN, the table exists, the insert meets no storage fault and a row id
    is left, POST /submit answers with the success response and the
    number of stored readings grows by exactly one. *)
Theorem C3_submit_stores_one :
  forall e form w s u t,
    form_get "usage" form = Some s ->
    PyFloat.float s = Some u ->
    is_nan u = false ->
    insert_fault e = false ->
    db w = Some t ->
    Z.max (seq t) (Sqlite.max_rowid (rows t)) < Sqlite.MAX_ROWID ->
    fst (submit e form w) = inl submit_success /\
    reading_count (snd (submit e form w)) = S (reading_count w).
Proof.
  intros e form w s u t Hform Hfloat Hnan Hfault Hdb Hroom.
  rewrite submit_run, Hform, Hfloat, insert_data_run.
  split; [reflexivity |].
  unfold insert_outcome. rewrite Hfault, Hdb.
  destruct (insert_usage_ok (now e) u t Hnan Hroom) as [t' Ht'].
  rewrite Ht'. cbn [snd]. unfold reading_count. cbn [db]. rewrite Hdb.
  apply insert_usage_rows in Ht'. destruct Ht' as (_ & _ & _ & Hrows).
  rewrite Hrows, length_app. cbn. lia.
Qed.

Lemma C3_submit_stores_one_witness :
  fst (submit (calm 1793664000) [("usage", " 3.5 ")] started) = inl submit_success /\
  reading_count (snd (submit (calm 1793664000) [("usage", " 3.5 ")] started)) = 1%nat.
Proof.
  apply (C3_submit_stores_one (calm 1793664000) [("usage", " 3.5 ")] started
           " 3.5 " (PyDec false 35 (-1)) empty_table);
    try reflexivity.
Defined.

(** C3 as it is stated fails at the text [nan]: it parses as a number,
    the route answers with the success response, and the number of
    readings is the same as before, because NaN is bound as NULL and the
    column is [NOT NULL]. *)
Lemma C3_counterexample :
  PyFloat.float "nan" = Some PyNaN /\
  fst (submit (calm 1793664000) [("usage", "nan")] started) = inl submit_success /\
  reading_count (snd (submit (calm 1793664000) [("usage", "nan")] started))
    = reading_count started.
Proof. repeat split; reflexivity. Qed.

(** The other ways the insert fails without the client seeing it: the
    table was never created, or the row ids are used up. *)
Lemma submit_before_init_db :
  fst (submit (calm 1793664000) [("usage", "3.5")] boot) = inl submit_success /\
  db (snd (submit (calm 1793664000) [("usage", "3.5")] boot)) = None.
Proof. split; reflexivity. Qed.

Lemma submit_row_ids_used_up :
  let full := mkWorld (Some (mkTable [] Sqlite.MAX_ROWID)) None None [] in
  fst (submit (calm 1793664000) [("usage", "3.5")] full) = inl submit_success /\
  reading_count (snd (submit (calm 1793664000) [("usage", "3.5")] full)) = 0%nat.
Proof. split; reflexivity. Qed.

(** C4. When the usage field does not parse as a number, POST /submit
    answers with the body [status: error, message: Invalid input! Please
    enter a numeric value.] and status 400; nothing at all changes: no
    INSERT is executed and the number of readings is the same. *)
Theorem C4_submit_rejects_non_numeric :
  forall e form w s,
    form_get "usage" form = Some s ->
    PyFloat.float s = None ->
    submit e form w =
      (inl (mkResponse
              [("status", "error");
               ("message", "Invalid input! Please enter a numeric value.")]
              400),
       w) /\
    reading_count (snd (submit e form w)) = reading_count w /\
    insert_attempts (log (snd (submit e form w))) = insert_attempts (log w).
Proof.
  intros e form w s Hform Hfloat.
  rewrite submit_run, Hform, Hfloat. repeat split; reflexivity.
Qed.

Lemma C4_submit_rejects_non_numeric_witness :
  submit (calm 1793664000) [("usage", "12 kWh")] started =
    (inl submit_invalid, started).
Proof.
  exact (proj1 (C4_submit_rejects_non_numeric
                  (calm 1793664000) [("usage", "12 kWh")] started "12 kWh"
                  eq_refl eq_refl)).
Defined.

(** C9. When the form has no usage field, the lookup raises the
    framework's [KeyError], which the handler's [except ValueError] does
    not catch: the exception leaves the handler, so neither the JSON
    success body nor the JSON error body is returned, and nothing is
    stored. *)
Theorem C9_submit_without_usage :
  forall e form w,
    form_get "usage" form = None ->
    submit e form w = (inr (BadRequestKeyError "usage"), w) /\
    fst (submit e form w) <> inl submit_success /\
    fst (submit e form w) <> inl submit_invalid /\
    reading_count (snd (submit e form w)) = reading_count w.
Proof.
  intros e form w Hform. rewrite submit_run, Hform. cbn [fst snd].
  repeat split; try reflexivity; discriminate.
Qed.

Lemma C9_submit_without_usage_witness :
  submit (calm 1793664000) [("amount", "3.5")] started =
    (inr (BadRequestKeyError "usage"), started).
Proof.
  exact (proj1 (C9_submit_without_usage
                  (calm 1793664000) [("amount", "3.5")] started eq_refl)).
Defined.

(** *** Blanks around the number *)

Section Blanks.
Import Text PyFloat.

Lemma space_not_digit : forall c, is_space c = true -> is_digit c = false.
Proof.
  intros c H. destruct (is_digit c) eqn:Hd; [| reflexivity].
  apply digit_not_space in Hd. congruence.
Qed.

Lemma space_not_underscore : forall c, is_space c = true -> Ascii.eqb c "_" = false.
Proof.
  intros c H. destruct (Ascii.eqb_spec c "_") as [-> |]; [discriminate H | reflexivity].
Qed.

Lemma lstrip_blank_app : forall l x, blank l = true -> lstrip (l ++ x) = lstrip x.
Proof.
  induction l as [| c l IH]; intros x H; simpl in *.
  - reflexivity.
  - apply andb_true_iff in H. destruct H as [Hc Hl]. rewrite Hc. auto.
Qed.

Lemma rstrip_blank : forall r, blank r = true -> rstrip r = EmptyString.
Proof.
  induction r as [| c r IH]; simpl; intros H.
  - reflexivity.
  - apply andb_true_iff in H. destruct H as [Hc Hr].
    rewrite (IH Hr), Hc. reflexivity.
Qed.

Lemma rstrip_app_blank : forall x r, blank r = true -> rstrip (x ++ r) = rstrip x.
Proof.
  induction x as [| c x IH]; intros r H; simpl.
  - apply rstrip_blank. exact H.
  - rewrite (IH r H). reflexivity.
Qed.

Lemma lstrip_blank : forall r, blank r = true -> lstrip r = EmptyString.
Proof.
  induction r as [| c r IH]; simpl; intros H.
  - reflexivity.
  - apply andb_true_iff in H. destruct H as [Hc Hr]. rewrite Hc. auto.
Qed.

Lemma strip_app_blank :
  forall t r, blank r = true -> strip (t ++ r) = strip t.
Proof.
  unfold strip. induction t as [| c t IH]; intros r H.
  - simpl. rewrite (lstrip_blank r H). reflexivity.
  - simpl. destruct (is_space c).
    + apply IH. exact H.
    + change (String c (t ++ r)) with (String c t ++ r).
      apply rstrip_app_blank. exact H.
Qed.

(** The underscore pass looks at the previous character only to ask
    whether it is a digit and whether it is an underscore. *)
Lemma strip_underscores_prev :
  forall x p q,
    is_digit p = is_digit q -> Ascii.eqb p "_" = Ascii.eqb q "_" ->
    strip_underscores p x = strip_underscores q x.
Proof.
  intros [| c x] p q Hd Hu; simpl; rewrite ?Hd, ?Hu; reflexivity.
Qed.

Lemma strip_underscores_blank_l :
  forall l x p,
    blank l = true -> is_digit p = false -> Ascii.eqb p "_" = false ->
    strip_underscores p (l ++ x) =
    option_map (append l) (strip_underscores p x).
Proof.
  induction l as [| c l IH]; intros x p Hl Hd Hu.
  - simpl. destruct (strip_underscores p x); reflexivity.
  - simpl in Hl. apply andb_true_iff in Hl. destruct Hl as [Hc Hl].
    simpl. rewrite (space_not_underscore c Hc), Hu. cbn [andb].
    rewrite (IH x c Hl (space_not_digit c Hc) (space_not_underscore c Hc)).
    rewrite (strip_underscores_prev x c p)
      by (rewrite ?Hd, ?Hu, ?(space_not_digit c Hc), ?(space_not_underscore c Hc);
          reflexivity).
    destruct (strip_underscores p x); reflexivity.
Qed.

Lemma strip_underscores_blank_only :
  forall r p,
    blank r = true -> Ascii.eqb p "_" = false ->
    strip_underscores p r = Some r.
Proof.
  induction r as [| c r IH]; intros p Hr Hu; simpl.
  - rewrite Hu. reflexivity.
  - simpl in Hr. apply andb_true_iff in Hr. destruct Hr as [Hc Hr].
    rewrite (space_not_underscore c Hc), Hu. cbn [andb].
    rewrite (IH c Hr (space_not_underscore c Hc)). reflexivity.
Qed.

Lemma strip_underscores_blank_r :
  forall x r p,
    blank r = true ->
    strip_underscores p (x ++ r) =
    option_map (fun t => t ++ r) (strip_underscores p x).
Proof.
  induction x as [| c x IH]; intros r p Hr.
  - simpl. destruct (Ascii.eqb p "_") eqn:Hu.
    + destruct r as [| c r]; simpl; [rewrite Hu; reflexivity |].
      simpl in Hr. apply andb_true_iff in Hr. destruct Hr as [Hc Hr].
      rewrite (space_not_underscore c Hc), Hu, (space_not_digit c Hc).
      reflexivity.
    + apply strip_underscores_blank_only; assumption.
  - simpl. destruct (Ascii.eqb c "_").
    + destruct (is_digit p); [apply IH; exact Hr | reflexivity].
    + destruct (Ascii.eqb p "_" && negb (is_digit c))%bool; [reflexivity |].
      rewrite (IH r c Hr).
      destruct (strip_underscores c x); reflexivity.
Qed.

(** [float] ignores blanks before and after the text. *)
Lemma float_surrounding_blanks :
  forall l x r,
    blank l = true -> blank r = true ->
    float (l ++ x ++ r) = float x.
Proof.
  intros l x r Hl Hr. unfold float.
  rewrite (strip_underscores_blank_l l (x ++ r) zero Hl eq_refl eq_refl).
  rewrite (strip_underscores_blank_r x r zero Hr).
  destruct (strip_underscores zero x) as [t |]; [| reflexivity].
  cbn [option_map].
  assert (Hs : strip (l ++ t ++ r) = strip t).
  { unfold strip at 1. rewrite (lstrip_blank_app l (t ++ r) Hl).
    apply (strip_app_blank t r Hr). }
  rewrite Hs. reflexivity.
Qed.

End Blanks.

(** C10. The only validation of POST /submit is that [float] accepts
    the text: whatever value it yields, infinite or NaN included, is
    handed to the INSERT as it is and the route answers with the success
    response.  Blanks around an accepted text are accepted, and so are
    the texts [inf], [-Infinity] and [nan]. *)
Theorem C10_submit_accepts_every_float :
  forall e w,
    (forall form s u,
        form_get "usage" form = Some s ->
        PyFloat.float s = Some u ->
        fst (submit e form w) = inl submit_success /\
        exists m,
          log (snd (submit e form w)) = (log w ++ [ev_insert u; ev_print m])%list) /\
    (forall form l x r,
        blank l = true -> blank r = true ->
        PyFloat.float x <> None ->
        form_get "usage" form = Some (l ++ x ++ r) ->
        fst (submit e form w) = inl submit_success) /\
    (PyFloat.float "inf" = Some (PyInf false) /\
     fst (submit e [("usage", "inf")] w) = inl submit_success) /\
    (PyFloat.float "-Infinity" = Some (PyInf true) /\
     fst (submit e [("usage", "-Infinity")] w) = inl submit_success) /\
    (PyFloat.float "nan" = Some PyNaN /\
     fst (submit e [("usage", "nan")] w) = inl submit_success) /\
    (PyFloat.float " 3.5 " = Some (PyDec false 35 (-1)) /\
     fst (submit e [("usage", " 3.5 ")] w) = inl submit_success).
Proof.
  intros e w.
  assert (Hgen : forall form s u,
             form_get "usage" form = Some s ->
             PyFloat.float s = Some u ->
             fst (submit e form w) = inl submit_success /\
             exists m,
               log (snd (submit e form w))
               = (log w ++ [ev_insert u; ev_print m])%list).
  { intros form s u Hform Hfloat.
    rewrite submit_run, Hform, Hfloat, insert_data_run.
    split; [reflexivity |]. cbn [snd].
    destruct (insert_outcome e u (db w)); eexists; reflexivity. }
  split; [exact Hgen |].
  split.
  { intros form l x r Hl Hr Hx Hform.
    destruct (PyFloat.float x) as [u |] eqn:Hfx; [| congruence].
    apply (Hgen form (l ++ x ++ r) u Hform).
    rewrite float_surrounding_blanks; assumption. }
  repeat split; try reflexivity;
    match goal with
    | |- fst (submit e [(_, ?s)] w) = _ =>
        let v := eval vm_compute in (PyFloat.float s) in
        match v with
        | Some ?u => exact (proj1 (Hgen [("usage", s)] s u eq_refl eq_refl))
        end
    end.
Qed.

Lemma C10_submit_accepts_every_float_witness :
  fst (submit (calm 1793664000) [("usage", "-Infinity")] started) = inl submit_success /\
  fst (submit (calm 1793664000) [("usage", "  1e3  ")] started) = inl submit_success.
Proof.
  pose proof (C10_submit_accepts_every_float (calm 1793664000) started)
    as (Hgen & Hblank & _).
  split.
  - exact (proj1 (Hgen [("usage", "-Infinity")] "-Infinity" (PyInf true)
                       eq_refl eq_refl)).
  - apply (Hblank [("usage", "  1e3  ")] "  " "1e3" "  "); try reflexivity.
    discriminate.
Defined.

(* ===================================================================== *)
(** ** The query of [get_data] *)
(* ===================================================================== *)

Lemma select_since_filter :
  forall c l,
    Sqlite.select_since c l = map point (filter (fun r => c <=? timestamp r) l).
Proof.
  intros c l. induction l as [| r l IH]; simpl.
  - reflexivity.
  - destruct (c <=? timestamp r); simpl; rewrite IH; reflexivity.
Qed.

Lemma in_select_since :
  forall c l p,
    In p (Sqlite.select_since c l) <->
    exists r, In r l /\ c <= timestamp r /\ p = point r.
Proof.
  intros c l p. rewrite select_since_filter, in_map_iff. split.
  - intros (r & Hp & Hin). apply filter_In in Hin. destruct Hin as [Hin Hc].
    exists r. repeat split; auto. apply Z.leb_le. exact Hc.
  - intros (r & Hin & Hc & Hp). exists r. split; [auto |].
    apply filter_In. split; [exact Hin | apply Z.leb_le; exact Hc].
Qed.

Lemma select_since_ascending :
  forall c l,
    timestamps_ascending l -> points_ascending (Sqlite.select_since c l).
Proof.
  intros c l H. unfold points_ascending.
  induction H as [| r l Hl IH Hr]; simpl.
  - constructor.
  - destruct (c <=? timestamp r); [| exact IH].
    constructor; [exact IH |].
    apply Forall_forall. intros p Hp.
    apply in_select_since in Hp. destruct Hp as (r' & Hin & _ & ->).
    rewrite Forall_forall in Hr. exact (Hr r' Hin).
Qed.

Lemma select_since_all_older :
  forall c l,
    (forall r, In r l -> timestamp r < c) -> Sqlite.select_since c l = [].
Proof.
  intros c l H. induction l as [| r l IH]; simpl.
  - reflexivity.
  - destruct (Z.leb_spec c (timestamp r)) as [Hle | Hlt].
    + specialize (H r (or_introl eq_refl)). lia.
    + apply IH. intros r' Hr'. apply H. right. exact Hr'.
Qed.

(** The bound of the window that [days] asks for. *)
Lemma window_bound :
  forall clock days,
    0 <= days ->
    Sqlite.valid_time clock = true ->
    Sqlite.valid_time (clock - 86400 * days) = true ->
    Sqlite.datetime_now clock (days_modifier days) = Some (clock - 86400 * days).
Proof.
  intros clock days Hdays Hnow Hcut.
  rewrite datetime_now_days_modifier.
  change Sqlite.SECONDS_PER_DAY with 86400. rewrite Hcut.
  assert (H0 : (0 <=? days) = true) by (apply Z.leb_le; exact Hdays).
  assert (H1 : (days <? Sqlite.DAY_LIMIT) = true).
  { apply Z.ltb_lt. unfold Sqlite.valid_time in Hnow, Hcut.
    apply andb_true_iff in Hnow. apply andb_true_iff in Hcut.
    destruct Hnow as [_ Hmax]. destruct Hcut as [Hmin _].
    apply Z.leb_le in Hmax. apply Z.leb_le in Hmin.
    unfold Sqlite.MIN_TIME, Sqlite.MAX_TIME, Sqlite.DAY_LIMIT in *. lia. }
  rewrite H0, H1. reflexivity.
Qed.

(** C2, as amended. For a count of days that is not negative and a
    window that starts at a date SQLite can represent, [get_data]
    returns exactly the readings whose timestamp is at least
    [now - days], in the order of the table, that is by row id; the
    sequence is ascending by timestamp whenever the timestamps of the
    table do not go back along the row ids. *)
Theorem C2_get_data_window :
  forall e w t days,
    db w = Some t ->
    query_fault e = None ->
    0 <= days ->
    Sqlite.valid_time (now e) = true ->
    Sqlite.valid_time (now e - 86400 * days) = true ->
    exists df,
      fst (get_data e days w) = inl df /\
      db (snd (get_data e days w)) = db w /\
      records df =
        map point (filter (fun r => now e - 86400 * days <=? timestamp r) (rows t)) /\
      (forall p, In p (records df) <->
                 exists r, In r (rows t) /\
                           now e - 86400 * days <= timestamp r /\ p = point r) /\
      (timestamps_ascending (rows t) -> points_ascending (records df)).
Proof.
  intros e w t days Hdb Hq Hdays Hnow Hcut.
  rewrite get_data_run, Hq, Hdb. cbn zeta. cbn [fst snd db].
  rewrite (window_bound (now e) days Hdays Hnow Hcut). cbn [Sqlite.select_where].
  eexists. split; [reflexivity |]. cbn [records].
  split; [reflexivity |].
  split; [apply select_since_filter |].
  split; [intro p; apply in_select_since |].
  apply select_since_ascending.
Qed.

Lemma C2_get_data_window_witness :
  exists df,
    fst (get_data (calm 1793664000) 7 set_back) = inl df /\
    records df = [(1793664000, PyDec false 1 0); (1793660400, PyDec false 2 0)].
Proof.
  destruct (C2_get_data_window
              (calm 1793664000) set_back
              (mkTable [mkReading 1 1793664000 (PyDec false 1 0);
                        mkReading 2 1793660400 (PyDec false 2 0)] 2)
              7 eq_refl eq_refl ltac:(lia) eq_refl eq_refl)
    as (df & Hrun & _ & Hrec & _).
  exists df. split; [exact Hrun | exact Hrec].
Defined.

(** C2 as it is stated fails: both readings are inside the window of
    seven days and both are returned, in the order of their row ids,
    which is not ascending by timestamp. *)
Lemma C2_counterexample :
  fst (get_data (calm 1793664000) 7 set_back) =
    inl (mkDataFrame ["timestamp"; "usage"]
           [(1793664000, PyDec false 1 0); (1793660400, PyDec false 2 0)]) /\
  ~ points_ascending [(1793664000, PyDec false 1 0); (1793660400, PyDec false 2 0)].
Proof.
  split; [reflexivity |].
  intro H. inversion H as [| p l _ Hall]; subst.
  inversion Hall as [| q l' Hle _]; subst. cbn in Hle. lia.
Qed.

(** A negative count of days sends [--n days], which SQLite does not
    read as a modifier: the bound is NULL and nothing is selected, even
    a reading stamped at the time of the query. *)
Lemma get_data_negative_days :
  fst (get_data (calm 1793664000) (-1) set_back) =
    inl (mkDataFrame ["timestamp"; "usage"] []).
Proof. reflexivity. Qed.

(** A window that would start before the first Julian day: the bound
    is NULL again and nothing is selected. *)
Lemma get_data_window_out_of_range :
  fst (get_data (calm 1793664000) 2462000 set_back) =
    inl (mkDataFrame ["timestamp"; "usage"] []).
Proof. vm_compute. reflexivity. Qed.

(* ===================================================================== *)
(** ** GET /visualize *)
(* ===================================================================== *)

Lemma DataFrame_empty_false :
  forall cols recs,
    DataFrame_empty (mkDataFrame cols recs) = false -> recs <> [].
Proof.
  intros cols recs H Hnil. subst recs. destruct cols; discriminate H.
Qed.

(** The two ways a request for the chart can end: the chart of the
    selected points is saved, or the image is left alone. *)
Lemma visualize_outcome :
  forall e w,
    db (snd (visualize e w)) = db w /\
    ((fst (visualize e w) = inl visualize_success /\
      exists t pts,
        db w = Some t /\ query_fault e = None /\ render_fault e = false /\
        pts = Sqlite.select_where
                (Sqlite.datetime_now (now e) (days_modifier 7)) (rows t) /\
        pts <> [] /\
        image (snd (visualize e w)) = Some pts /\
        log (snd (visualize e w)) =
          (log w ++ [ev_select (days_modifier 7); ev_savefig image_path pts])%list)
     \/
     (fst (visualize e w) <> inl visualize_success /\
      image (snd (visualize e w)) = image w /\
      exists evs,
        log (snd (visualize e w)) = (log w ++ ev_select (days_modifier 7) :: evs)%list /\
        Forall (fun ev => is_savefig ev = false /\ is_select ev = false) evs)).
Proof.
  intros e w. rewrite visualize_run, get_data_run.
  change get_data_default_days with 7. cbn zeta.
  destruct (query_fault e) as [ex |] eqn:Hq.
  - destruct (isinstance ex cls_sqlite3_Error); cbn [DataFrame_empty columns fst snd db image log];
      (split; [reflexivity |]); right;
      (split; [discriminate |]); (split; [reflexivity |]);
      rewrite ?app_two; eexists; (split; [reflexivity |]);
      repeat constructor.
  - destruct (db w) as [t |] eqn:Hdb.
    + destruct (DataFrame_empty _) eqn:Hempty.
      * cbn [fst snd db image log]. split; [reflexivity |]. right.
        split; [discriminate |]. split; [reflexivity |].
        exists []. split; [reflexivity | constructor].
      * apply DataFrame_empty_false in Hempty.
        destruct (render_fault e) eqn:Hr; cbn [fst snd db image log records].
        -- split; [reflexivity |]. right.
           split; [discriminate |]. split; [reflexivity |].
           rewrite app_two. eexists. split; [reflexivity |]. repeat constructor.
        -- split; [reflexivity |]. left.
           split; [reflexivity |].
           exists t. eexists. repeat split; try reflexivity.
           ++ exact Hempty.
           ++ rewrite app_two. reflexivity.
    + cbn [fst snd db image log]. split; [reflexivity |]. right.
      split; [discriminate |]. split; [reflexivity |].
      rewrite app_two. eexists. split; [reflexivity |]. repeat constructor.
Qed.

(** C5. When the table holds no reading of the last seven days and the
    query itself does not fail, GET /visualize answers with the body
    [status: error, message: No data available for visualization.] and
    status 400, and the image file is left as it was, no figure being
    saved; and whenever a figure is saved, it is drawn from a sequence
    that is not empty. *)
Theorem C5_visualize_no_data :
  forall e w,
    (forall t,
        db w = Some t ->
        query_fault e = None ->
        (forall r, In r (rows t) -> timestamp r < now e - 86400 * 7) ->
        fst (visualize e w) =
          inl (mkResponse
                 [("status", "error");
                  ("message", "No data available for visualization.")]
                 400) /\
        image (snd (visualize e w)) = image w /\
        filter is_savefig (log (snd (visualize e w))) = filter is_savefig (log w)) /\
    (forall path pts,
        In (ev_savefig path pts) (log (snd (visualize e w))) ->
        In (ev_savefig path pts) (log w) \/ pts <> []).
Proof.
  intros e w. split.
  - intros t Hdb Hq Hold.
    rewrite visualize_run, get_data_run, Hq, Hdb.
    change get_data_default_days with 7. cbn zeta.
    assert (Hsel : Sqlite.select_where
                     (Sqlite.datetime_now (now e) (days_modifier 7)) (rows t) = []).
    { rewrite datetime_now_days_modifier.
      destruct (_ && _)%bool; cbn [Sqlite.select_where]; [| reflexivity].
      apply select_since_all_older. exact Hold. }
    rewrite Hsel. cbn [DataFrame_empty columns records fst snd image log].
    split; [reflexivity |]. split; [reflexivity |].
    rewrite filter_app. cbn. apply app_nil_r.
  - intros path pts Hin.
    destruct (visualize_outcome e w) as [_ [Hok | Hno]].
    + destruct Hok as (_ & t & pts' & _ & _ & _ & _ & Hne & _ & Hlog).
      rewrite Hlog in Hin. apply in_app_or in Hin.
      destruct Hin as [Hin | [Hin | [Hin | []]]]; [left; exact Hin | discriminate |].
      inversion Hin; subst. right. exact Hne.
    + destruct Hno as (_ & _ & evs & Hlog & Hall).
      rewrite Hlog in Hin. apply in_app_or in Hin.
      destruct Hin as [Hin | [Hin | Hin]]; [left; exact Hin | discriminate |].
      rewrite Forall_forall in Hall. destruct (Hall _ Hin) as [Hs _].
      discriminate Hs.
Qed.

Lemma C5_visualize_no_data_witness :
  fst (visualize (calm 1793664000) started) = inl visualize_no_data /\
  image (snd (visualize (calm 1793664000) started)) = None.
Proof.
  destruct (proj1 (C5_visualize_no_data (calm 1793664000) started)
              empty_table eq_refl eq_refl)
    as (Hresp & Himg & _).
  - intros r [].
  - split; [exact Hresp | exact Himg].
Defined.

(** A [sqlite3.Error] that reaches the [except] clause of [get_data]
    as it is, not wrapped by pandas, is caught: [get_data] returns the
    empty frame and GET /visualize answers with the "no data" body and
    status 400; the table and the image are untouched. *)
Lemma get_data_catches_sqlite3_error :
  forall e w days ex,
    query_fault e = Some ex ->
    isinstance ex cls_sqlite3_Error = true ->
    fst (get_data e days w) = inl (mkDataFrame [] []) /\
    db (snd (get_data e days w)) = db w /\
    fst (visualize e w) =
      inl (mkResponse
             [("status", "error");
              ("message", "No data available for visualization.")]
             400) /\
    db (snd (visualize e w)) = db w /\
    image (snd (visualize e w)) = image w.
Proof.
  intros e w days ex Hq Hcls.
  rewrite visualize_run, !get_data_run, Hq, Hcls. cbn zeta.
  repeat split; reflexivity.
Qed.

Lemma get_data_catches_sqlite3_error_example :
  fst (get_data (faulty_query 1793664000) 7 set_back) = inl (mkDataFrame [] []) /\
  fst (visualize (faulty_query 1793664000) set_back) = inl visualize_no_data.
Proof. split; reflexivity. Qed.

(** A SELECT that fails because the table is not there: pandas raises
    its own [DatabaseError], which is no [sqlite3.Error]; it leaves
    [get_data], and GET /visualize answers 500. *)
Lemma failed_select_escapes :
  forall e w days,
    query_fault e = None ->
    db w = None ->
    fst (get_data e days w) = inr PandasDatabaseError /\
    fst (visualize e w) = inl visualize_failed.
Proof.
  intros e w days Hq Hdb.
  rewrite visualize_run, !get_data_run, Hq, Hdb. cbn zeta.
  split; reflexivity.
Qed.

(** C6, at two failing inputs.  The claim says that a failed query ends
    in the empty result and the "no data" answer.  When the SELECT
    itself fails, because the file holds no [energy_usage] table
    ([init_db] was not run) or because the statement meets a fault
    inside pandas, the exception that reaches [get_data] is pandas'
    [DatabaseError]: the [except sqlite3.Error] clause does not catch
    it, [get_data] lets it out instead of returning the empty frame, and
    GET /visualize answers with the "failed to generate" body and status
    500 instead of the "no data" body and status 400. *)
Theorem C6_failed_select_is_500 :
  fst (get_data (calm 1793664000) 7 boot) = inr PandasDatabaseError /\
  fst (visualize (calm 1793664000) boot) =
    inl (mkResponse
           [("status", "error");
            ("message", "Failed to generate visualization.")]
           500) /\
  fst (get_data (wrapped_query_fault 1793664000) 7 set_back)
    = inr PandasDatabaseError /\
  fst (visualize (wrapped_query_fault 1793664000) set_back)
    = inl visualize_failed /\
  visualize_failed <> visualize_no_data /\
  isinstance PandasDatabaseError cls_sqlite3_Error = false.
Proof.
  repeat split; try reflexivity. discriminate.
Qed.

(** C7. GET /visualize calls [get_data] with no argument, so with the
    default of seven days: the one SELECT it executes carries the
    parameter [-7 days], and when the chart is produced it shows exactly
    the readings whose timestamp is at least [now - 7 days], none
    older. *)
Theorem C7_visualize_seven_days :
  forall e w,
    get_data_default_days = 7 /\
    days_modifier get_data_default_days = "-7 days" /\
    (exists evs,
        log (snd (visualize e w)) = (log w ++ ev_select "-7 days" :: evs)%list /\
        Forall (fun ev => is_select ev = false) evs) /\
    (fst (visualize e w) = inl visualize_success ->
     exists t,
       db w = Some t /\
       image (snd (visualize e w)) =
         Some (map point
                 (filter (fun r => now e - 86400 * 7 <=? timestamp r) (rows t))) /\
       (forall p, In p (map point
                          (filter (fun r => now e - 86400 * 7 <=? timestamp r) (rows t)))
                   -> now e - 86400 * 7 <= fst p)).
Proof.
  intros e w. split; [reflexivity |]. split; [reflexivity |].
  destruct (visualize_outcome e w) as [_ [Hok | Hno]].
  - destruct Hok as (Hresp & t & pts & Hdb & _ & _ & Hpts & Hne & Himg & Hlog).
    split.
    + eexists. split; [exact Hlog | repeat constructor].
    + intros _. exists t. split; [exact Hdb |].
      rewrite datetime_now_days_modifier in Hpts.
      change Sqlite.SECONDS_PER_DAY with 86400 in Hpts.
      destruct (_ && _)%bool; cbn [Sqlite.select_where] in Hpts;
        [| congruence].
      rewrite select_since_filter in Hpts. rewrite Himg, Hpts.
      split; [reflexivity |].
      intros p Hp. apply in_map_iff in Hp. destruct Hp as (r & <- & Hin).
      apply filter_In in Hin. destruct Hin as [_ Hc]. apply Z.leb_le in Hc.
      exact Hc.
  - destruct Hno as (Hresp & _ & evs & Hlog & Hall).
    split.
    + exists evs. split; [exact Hlog |].
      eapply Forall_impl; [| exact Hall]. intros ev [_ H]. exact H.
    + intros Hs. contradiction.
Qed.

Lemma C7_visualize_seven_days_witness :
  fst (visualize (calm 1794268800) set_back) = inl visualize_success /\
  image (snd (visualize (calm 1794268800) set_back))
    = Some [(1793664000, PyDec false 1 0)].
Proof.
  pose proof (C7_visualize_seven_days (calm 1794268800) set_back)
    as (_ & _ & _ & H).
  assert (Hs : fst (visualize (calm 1794268800) set_back) = inl visualize_success).
  { reflexivity. }
  split; [exact Hs |].
  destruct (H Hs) as (t & Hdb & Himg & _).
  inversion Hdb; subst t. exact Himg.
Defined.

(* ===================================================================== *)
(** ** Row ids *)
(* ===================================================================== *)

Lemma max_rowid_bound :
  forall l r, In r l -> id r <= Sqlite.max_rowid l.
Proof.
  induction l as [| a l IH]; intros r Hin; simpl in *.
  - contradiction.
  - destruct Hin as [-> | Hin]; [lia |]. specialize (IH r Hin). lia.
Qed.

Lemma ids_increasing_snoc :
  forall l r,
    ids_increasing l ->
    (forall r', In r' l -> id r' < id r) ->
    ids_increasing (l ++ [r]).
Proof.
  unfold ids_increasing. intros l r Hl. induction Hl as [| a l Hl IH Ha]; intros Hr.
  - simpl. constructor; constructor.
  - simpl. constructor.
    + apply IH. intros r' Hr'. apply Hr. right. exact Hr'.
    + apply Forall_app. split; [exact Ha |].
      constructor; [| constructor]. apply Hr. left. reflexivity.
Qed.

Lemma ids_increasing_NoDup :
  forall l, ids_increasing l -> NoDup (map id l).
Proof.
  unfold ids_increasing. intros l Hl. induction Hl as [| a l Hl IH Ha]; simpl.
  - constructor.
  - constructor; [| exact IH].
    intro Hin. apply in_map_iff in Hin. destruct Hin as (r & Heq & Hr).
    rewrite Forall_forall in Ha. specialize (Ha r Hr). lia.
Qed.

(** What a submission does to the table: nothing, or one row appended
    whose id is one more than the largest id ever used. *)
Lemma submit_table :
  forall e form w,
    db (snd (submit e form w)) = db w \/
    exists t t' r,
      db w = Some t /\ db (snd (submit e form w)) = Some t' /\
      rows t' = (rows t ++ [r])%list /\
      timestamp r = now e /\
      id r = seq t' /\
      seq t' = Z.max (seq t) (Sqlite.max_rowid (rows t)) + 1.
Proof.
  intros e form w. rewrite submit_run.
  destruct (form_get "usage" form) as [s |]; [| left; reflexivity].
  destruct (PyFloat.float s) as [u |]; [| left; reflexivity].
  rewrite insert_data_run. cbn [snd]. unfold insert_outcome.
  destruct (insert_fault e); [left; reflexivity |].
  destruct (db w) as [t |] eqn:Hdb; [| left; reflexivity].
  destruct (Sqlite.insert_usage (now e) u t) as [k | t'] eqn:Hins;
    [left; reflexivity |].
  right. apply insert_usage_rows in Hins.
  destruct Hins as (_ & _ & Hseq & Hrows).
  exists t, t', (mkReading (seq t') (now e) u).
  repeat split; auto.
Qed.

Lemma submit_rows :
  forall e form w,
    stored_rows (snd (submit e form w)) = stored_rows w \/
    exists r,
      stored_rows (snd (submit e form w)) = (stored_rows w ++ [r])%list /\
      (forall r', In r' (stored_rows w) -> id r' < id r).
Proof.
  intros e form w. unfold stored_rows.
  destruct (submit_table e form w) as [Hsame | (t & t' & r & Hdb & Hdb' & Hrows & _ & Hid & Hseq)].
  - left. rewrite Hsame. reflexivity.
  - right. rewrite Hdb, Hdb'. exists r. split; [exact Hrows |].
    intros r' Hr'. apply max_rowid_bound in Hr'. lia.
Qed.

Lemma serve_rows :
  forall e q w,
    stored_rows (snd (serve e q w)) = stored_rows w \/
    exists r,
      stored_rows (snd (serve e q w)) = (stored_rows w ++ [r])%list /\
      (forall r', In r' (stored_rows w) -> id r' < id r).
Proof.
  intros e [form |] w; cbn [serve].
  - apply submit_rows.
  - left. unfold stored_rows.
    rewrite (proj1 (visualize_outcome e w)). reflexivity.
Qed.

Lemma run_rows :
  forall reqs w,
    ids_increasing (stored_rows w) ->
    exists added,
      stored_rows (run reqs w) = (stored_rows w ++ added)%list /\
      ids_increasing (stored_rows (run reqs w)).
Proof.
  induction reqs as [| [e q] reqs IH]; intros w Hw; cbn [run].
  - exists []. rewrite app_nil_r. split; [reflexivity | exact Hw].
  - destruct (serve_rows e q w) as [Hsame | (r & Hrows & Hr)].
    + destruct (IH (snd (serve e q w))) as (added & Hadd & Hinc).
      * rewrite Hsame. exact Hw.
      * exists added. split; [rewrite Hadd, Hsame; reflexivity | exact Hinc].
    + destruct (IH (snd (serve e q w))) as (added & Hadd & Hinc).
      * rewrite Hrows. apply ids_increasing_snoc; assumption.
      * exists (r :: added).
        split; [rewrite Hadd, Hrows, <- app_assoc; reflexivity | exact Hinc].
Qed.

Lemma started_ids_increasing : ids_increasing (stored_rows started).
Proof. constructor. Qed.

(** C8. In a table whose row ids grow along it, as every table does
    that [init_db] created and only this program wrote: two submissions
    that each store a reading, be it of the same usage value, append two
    rows whose ids differ, the second above the first and the first
    above every id already there; and along any sequence of requests the
    rows already stored stay as they are, new rows come after them, and
    the ids stay increasing, hence without a repeat. *)
Theorem C8_ids_distinct_and_increasing :
  forall w0,
    ids_increasing (stored_rows w0) ->
    (forall e1 form1 e2 form2,
        reading_count (snd (submit e1 form1 w0)) = S (reading_count w0) ->
        reading_count (snd (submit e2 form2 (snd (submit e1 form1 w0))))
          = S (reading_count (snd (submit e1 form1 w0))) ->
        exists r1 r2,
          stored_rows (snd (submit e2 form2 (snd (submit e1 form1 w0))))
            = (stored_rows w0 ++ [r1; r2])%list /\
          id r1 < id r2 /\ id r1 <> id r2 /\
          Forall (fun r => id r < id r1) (stored_rows w0)) /\
    (forall reqs,
        exists added,
          stored_rows (run reqs w0) = (stored_rows w0 ++ added)%list /\
          ids_increasing (stored_rows (run reqs w0)) /\
          NoDup (map id (stored_rows (run reqs w0)))).
Proof.
  intros w0 Hw0. split.
  - intros e1 form1 e2 form2 H1 H2.
    set (w1 := snd (submit e1 form1 w0)) in *.
    destruct (submit_table e1 form1 w0)
      as [Hsame | (t0 & t1 & r1 & Hdb0 & Hdb1 & Hrows1 & _ & Hid1 & Hseq1)].
    { exfalso. unfold reading_count in H1. fold w1 in Hsame.
      rewrite Hsame in H1. lia. }
    destruct (submit_table e2 form2 w1)
      as [Hsame | (t1' & t2 & r2 & Hdb1' & Hdb2 & Hrows2 & _ & Hid2 & Hseq2)].
    { exfalso. unfold reading_count in H2. rewrite Hsame in H2. lia. }
    fold w1 in Hdb1. rewrite Hdb1 in Hdb1'. inversion Hdb1'; subst t1'.
    exists r1, r2. unfold stored_rows. rewrite Hdb2, Hdb0, Hrows2, Hrows1.
    rewrite <- app_assoc. split; [reflexivity |].
    assert (Hlt : id r1 < id r2) by lia.
    split; [exact Hlt |]. split; [lia |].
    apply Forall_forall. intros r Hr. apply max_rowid_bound in Hr. lia.
  - intros reqs. destruct (run_rows reqs w0 Hw0) as (added & Hadd & Hinc).
    exists added. split; [exact Hadd |]. split; [exact Hinc |].
    apply ids_increasing_NoDup. exact Hinc.
Qed.

Lemma C8_ids_distinct_and_increasing_witness :
  exists r1 r2,
    stored_rows
      (snd (submit (calm 1793664060) [("usage", "3.5")]
              (snd (submit (calm 1793664000) [("usage", "3.5")] started))))
      = [r1; r2] /\
    id r1 < id r2.
Proof.
  destruct (proj1 (C8_ids_distinct_and_increasing started started_ids_increasing)
              (calm 1793664000) [("usage", "3.5")]
              (calm 1793664060) [("usage", "3.5")] eq_refl eq_refl)
    as (r1 & r2 & Hrows & Hlt & _).
  exists r1, r2. split; [exact Hrows | exact Hlt].
Defined.

(* ===================================================================== *)
(** ** Further properties: start-up and the write path *)
(* ===================================================================== *)

Lemma init_db_run :
  forall w,
    init_db w =
    (inl tt,
     mkWorld (Some (match db w with Some t => t | None => empty_table end))
             None (image w)
             (log w ++ [ev_create_table; ev_print msg_initialized])).
Proof.
  intros w. unfold init_db, execute_create_table. run_monad.
  destruct (db w) as [t |]; cbn [db txn image log fst snd]; rewrite app_two; reflexivity.
Qed.

(** X1. [init_db] creates the empty table when the file has none and
    leaves an existing table exactly as it is, so the readings stored by
    an earlier run of the process survive a restart; running it again
    changes nothing in the file. *)
Theorem X1_init_db_keeps_readings :
  forall w,
    fst (init_db w) = inl tt /\
    (db w = None -> db (snd (init_db w)) = Some empty_table) /\
    (forall t, db w = Some t -> db (snd (init_db w)) = Some t) /\
    stored_rows (snd (init_db w)) = stored_rows w /\
    db (snd (init_db (snd (init_db w)))) = db (snd (init_db w)) /\
    image (snd (init_db w)) = image w.
Proof.
  intros w. rewrite !init_db_run. cbn [fst snd db image].
  split; [reflexivity |].
  split; [intros H; rewrite H; reflexivity |].
  split; [intros t H; rewrite H; reflexivity |].
  split; [| split; reflexivity].
  unfold stored_rows. cbn [db]. destruct (db w); reflexivity.
Qed.

Lemma X1_init_db_keeps_readings_witness :
  db (snd (init_db boot)) = Some empty_table /\
  db (snd (init_db set_back)) = db set_back.
Proof.
  split.
  - exact (proj1 (proj2 (X1_init_db_keeps_readings boot)) eq_refl).
  - exact (proj1 (proj2 (proj2 (X1_init_db_keeps_readings set_back))) _ eq_refl).
Defined.

(** What a submission stores, when it stores: the parsed value, which is
    no NaN, stamped with the clock of the request. *)
Lemma submit_appends :
  forall e form w,
    db (snd (submit e form w)) = db w \/
    exists t t' s u,
      db w = Some t /\ db (snd (submit e form w)) = Some t' /\
      form_get "usage" form = Some s /\ PyFloat.float s = Some u /\
      is_nan u = false /\
      seq t' = Z.max (seq t) (Sqlite.max_rowid (rows t)) + 1 /\
      rows t' = (rows t ++ [mkReading (seq t') (now e) u])%list.
Proof.
  intros e form w. rewrite submit_run.
  destruct (form_get "usage" form) as [s |]; [| left; reflexivity].
  destruct (PyFloat.float s) as [u |] eqn:Hf; [| left; reflexivity].
  rewrite insert_data_run. cbn [snd]. unfold insert_outcome.
  destruct (insert_fault e); [left; reflexivity |].
  destruct (db w) as [t |] eqn:Hdb; [| left; reflexivity].
  destruct (Sqlite.insert_usage (now e) u t) as [k | t'] eqn:Hins;
    [left; reflexivity |].
  right. apply insert_usage_rows in Hins.
  destruct Hins as (Hnan & _ & Hseq & Hrows).
  exists t, t', s, u. repeat split; auto.
Qed.

(** X2. [insert_data] never lets an exception out and never leaves a
    transaction open; the write is all or nothing: the committed table
    is either the one before, or the one before with a single row added
    that carries the given value and the clock of the request. *)
Theorem X2_insert_data_all_or_nothing :
  forall e u w,
    fst (insert_data e u w) = inl tt /\
    txn (snd (insert_data e u w)) = None /\
    image (snd (insert_data e u w)) = image w /\
    (db (snd (insert_data e u w)) = db w \/
     exists t i,
       db w = Some t /\
       (forall r, In r (rows t) -> id r < i) /\
       db (snd (insert_data e u w)) =
         Some (mkTable (rows t ++ [mkReading i (now e) u]) i)).
Proof.
  intros e u w. rewrite insert_data_run. cbn [fst snd].
  unfold insert_outcome.
  destruct (insert_fault e); [repeat split; left; reflexivity |].
  destruct (db w) as [t |]; [| repeat split; left; reflexivity].
  destruct (Sqlite.insert_usage (now e) u t) as [k | t'] eqn:Hins;
    cbn [db txn image]; [repeat split; left; reflexivity |].
  repeat split. right.
  apply insert_usage_rows in Hins. destruct Hins as (_ & _ & Hseq & Hrows).
  exists t, (seq t'). split; [reflexivity |]. split.
  - intros r Hr. apply max_rowid_bound in Hr. lia.
  - destruct t' as [rows' seq']. cbn [rows seq] in *. subst rows'. reflexivity.
Qed.

(** X3. Of several [usage] fields in one form the first is the one that
    counts, and fields of other names play no part: the request is
    served as if that one field had been sent alone. *)
Theorem X3_submit_first_usage_field :
  forall e w before v after,
    form_get "usage" before = None ->
    submit e (before ++ ("usage", v) :: after)%list w = submit e [("usage", v)] w.
Proof.
  intros e w before v after Hnone.
  assert (Hget : form_get "usage" (before ++ ("usage", v) :: after)%list = Some v).
  { induction before as [| [k x] before IH]; simpl in *.
    - reflexivity.
    - destruct (String.eqb k "usage"); [discriminate Hnone | exact (IH Hnone)]. }
  rewrite !submit_run, Hget. reflexivity.
Qed.

Lemma X3_submit_first_usage_field_witness :
  submit (calm 1793664000)
         ([("unit", "kWh")] ++ ("usage", "3.5") :: [("usage", "oops")])%list started
  = submit (calm 1793664000) [("usage", "3.5")] started.
Proof.
  apply (X3_submit_first_usage_field
           (calm 1793664000) started [("unit", "kWh")] "3.5" [("usage", "oops")]).
  reflexivity.
Defined.

Lemma float_blank : forall s, blank s = true -> PyFloat.float s = None.
Proof.
  intros s Hs. unfold PyFloat.float.
  rewrite (strip_underscores_blank_only s zero Hs eq_refl).
  unfold Text.strip. rewrite (lstrip_blank s Hs). reflexivity.
Qed.

(** X4. A usage field that is empty or holds blanks only is refused
    like any other text that is no number: status 400 with the
    invalid-input body, and nothing is written. *)
Theorem X4_submit_blank_usage :
  forall e form w s,
    form_get "usage" form = Some s ->
    blank s = true ->
    submit e form w = (inl submit_invalid, w).
Proof.
  intros e form w s Hform Hs.
  rewrite submit_run, Hform, (float_blank s Hs). reflexivity.
Qed.

Lemma X4_submit_blank_usage_witness :
  submit (calm 1793664000) [("usage", "")] started = (inl submit_invalid, started) /\
  submit (calm 1793664000) [("usage", "   ")] started = (inl submit_invalid, started).
Proof.
  split.
  - apply (X4_submit_blank_usage (calm 1793664000) [("usage", "")] started "");
      reflexivity.
  - apply (X4_submit_blank_usage (calm 1793664000) [("usage", "   ")] started "   ");
      reflexivity.
Defined.

Lemma X2_insert_data_all_or_nothing_witness :
  fst (insert_data (calm 1793664000) (PyInf false) started) = inl tt /\
  txn (snd (insert_data (calm 1793664000) (PyInf false) started)) = None.
Proof.
  pose proof (X2_insert_data_all_or_nothing (calm 1793664000) (PyInf false) started)
    as (Hret & Htxn & _).
  split; [exact Hret | exact Htxn].
Defined.

(* ===================================================================== *)
(** ** Further properties: the read path *)
(* ===================================================================== *)



(** X6. GET /visualize never lets an exception out: it always answers,
    with status 200, 400 or 500 and the matching body, and it never
    changes the table.  With data in the window and a fault while
    drawing, the answer is the 500 body. *)
Theorem X6_visualize_always_answers :
  forall e w,
    (exists r,
        fst (visualize e w) = inl r /\
        ((r = visualize_success /\ status_code r = 200) \/
         (r = visualize_no_data /\ status_code r = 400) \/
         (r = visualize_failed /\ status_code r = 500))) /\
    db (snd (visualize e w)) = db w /\
    (forall df,
        fst (get_data e get_data_default_days w) = inl df ->
        DataFrame_empty df = false ->
        render_fault e = true ->
        fst (visualize e w) = inl visualize_failed).
Proof.
  intros e w. split; [| split].
  - rewrite visualize_run.
    destruct (get_data e get_data_default_days w) as [[df | ex] w1].
    + destruct (DataFrame_empty df).
      * eexists. split; [reflexivity |]. right. left. split; reflexivity.
      * destruct (render_fault e); eexists; (split; [reflexivity |]).
        -- right. right. split; reflexivity.
        -- left. split; reflexivity.
    + eexists. split; [reflexivity |]. right. right. split; reflexivity.
  - exact (proj1 (visualize_outcome e w)).
  - intros df Hdf Hne Hr. rewrite visualize_run.
    destruct (get_data e get_data_default_days w) as [[df' | ex] w1];
      cbn [fst] in Hdf; [| discriminate Hdf].
    inversion Hdf; subst df'. rewrite Hne, Hr. reflexivity.
Qed.

Lemma X6_visualize_always_answers_witness :
  fst (visualize (faulty_render 1793664000) set_back) = inl visualize_failed.
Proof.
  apply (proj2 (proj2 (X6_visualize_always_answers
                         (faulty_render 1793664000) set_back))
           (mkDataFrame ["timestamp"; "usage"]
              [(1793664000, PyDec false 1 0); (1793660400, PyDec false 2 0)]));
    reflexivity.
Defined.

(** An integer of at most seven digits is one Python writes out. *)
Lemma seven_digits_formattable :
  forall n, Z.abs n < 10 ^ 7 -> Z.abs n < 10 ^ int_max_str_digits.
Proof.
  intros n H. apply (Z.lt_le_trans _ (10 ^ 7) _ H).
  apply Z.pow_le_mono_r; unfold int_max_str_digits; lia.
Qed.

(** X7. For every integer [days] that Python writes out, that is of at
    most 4300 digits (for a longer one the f-string itself raises),
    when the table exists and the query does not fail, [get_data]
    returns the readings not older than [now - days] if [days] is not
    negative, below SQLite's limit for days, and the start of the
    window is a date SQLite can represent; in every other case, a
    negative [days] among them, it returns a frame without rows.  It
    never changes the table or the image. *)
Theorem X7_get_data_every_days :
  forall e w t days,
    db w = Some t ->
    query_fault e = None ->
    Z.abs days < 10 ^ int_max_str_digits ->
    fst (get_data e days w) =
      inl (mkDataFrame ["timestamp"; "usage"]
             (if ((0 <=? days) && (days <? 5373485)
                  && Sqlite.valid_time (now e - 86400 * days))%bool
              then map point
                     (filter (fun r => now e - 86400 * days <=? timestamp r) (rows t))
              else [])) /\
    (days < 0 -> fst (get_data e days w) = inl (mkDataFrame ["timestamp"; "usage"] [])) /\
    db (snd (get_data e days w)) = db w /\
    image (snd (get_data e days w)) = image w.
Proof.
  intros e w t days Hdb Hq _.
  rewrite get_data_run, Hq, Hdb. cbn zeta. cbn [fst snd db image].
  rewrite datetime_now_days_modifier.
  change Sqlite.SECONDS_PER_DAY with 86400. change Sqlite.DAY_LIMIT with 5373485.
  split; [| split; [| split; reflexivity]].
  - destruct (_ && _)%bool; cbn [Sqlite.select_where];
      [rewrite select_since_filter |]; reflexivity.
  - intros Hneg.
    assert (H0 : (0 <=? days) = false) by (apply Z.leb_gt; exact Hneg).
    rewrite H0. reflexivity.
Qed.

Lemma X7_get_data_every_days_witness :
  fst (get_data (calm 1793664000) (-7) set_back)
  = inl (mkDataFrame ["timestamp"; "usage"] []).
Proof.
  apply (proj1 (proj2 (X7_get_data_every_days
                         (calm 1793664000) set_back
                         (mkTable [mkReading 1 1793664000 (PyDec false 1 0);
                                   mkReading 2 1793660400 (PyDec false 2 0)] 2)
                         (-7) eq_refl eq_refl
                         (seven_digits_formattable (-7) eq_refl)))).
  lia.
Defined.

Lemma filter_filter_weaker :
  forall (A : Type) (f g : A -> bool) (l : list A),
    (forall x, f x = true -> g x = true) ->
    filter f (filter g l) = filter f l.
Proof.
  intros A f g l H. induction l as [| x l IH]; simpl.
  - reflexivity.
  - destruct (g x) eqn:Hg; simpl.
    + rewrite IH. reflexivity.
    + destruct (f x) eqn:Hf; [rewrite (H x Hf) in Hg; discriminate | exact IH].
Qed.

Lemma filter_map_point :
  forall c l,
    filter (fun p : Z * pyfloat => c <=? fst p) (map point l) =
    map point (filter (fun r => c <=? timestamp r) l).
Proof.
  intros c l. induction l as [| r l IH]; simpl.
  - reflexivity.
  - destruct (c <=? timestamp r); simpl; rewrite IH; reflexivity.
Qed.

(** X8. A shorter window is the longer one cut down, as long as SQLite
    can compute the longer one: for [0 <= d1 <= d2], a clock in the
    range of dates SQLite supports and a start [now - d2] of the longer
    window that is in that range too, with the table in place and the
    query not failing, what [get_data] returns for [d1] days is what it
    returns for [d2] days without the points older than [now - d1], in
    the same order. *)
Theorem X8_get_data_window_nesting :
  forall e w t d1 d2,
    db w = Some t ->
    query_fault e = None ->
    0 <= d1 -> d1 <= d2 ->
    Sqlite.valid_time (now e) = true ->
    Sqlite.valid_time (now e - 86400 * d2) = true ->
    exists df1 df2,
      fst (get_data e d1 w) = inl df1 /\
      fst (get_data e d2 w) = inl df2 /\
      records df1 =
        filter (fun p => now e - 86400 * d1 <=? fst p) (records df2) /\
      (forall p, In p (records df1) -> In p (records df2)).
Proof.
  intros e w t d1 d2 Hdb Hq H1 H12 Hnow Hcut2.
  assert (Hcut1 : Sqlite.valid_time (now e - 86400 * d1) = true).
  { unfold Sqlite.valid_time in *.
    apply andb_true_iff in Hnow. apply andb_true_iff in Hcut2.
    destruct Hnow as [_ Hmax]. destruct Hcut2 as [Hmin _].
    apply Z.leb_le in Hmax. apply Z.leb_le in Hmin.
    apply andb_true_iff. split; apply Z.leb_le; lia. }
  rewrite !get_data_run, Hq, Hdb. cbn zeta. cbn [fst].
  rewrite (window_bound (now e) d1 H1 Hnow Hcut1).
  rewrite (window_bound (now e) d2 ltac:(lia) Hnow Hcut2).
  cbn [Sqlite.select_where].
  do 2 eexists. split; [reflexivity |]. split; [reflexivity |].
  cbn [records]. rewrite !select_since_filter.
  assert (Heq : map point (filter (fun r => now e - 86400 * d1 <=? timestamp r) (rows t))
                = filter (fun p => now e - 86400 * d1 <=? fst p)
                    (map point
                       (filter (fun r => now e - 86400 * d2 <=? timestamp r) (rows t)))).
  { rewrite filter_map_point. f_equal. symmetry. apply filter_filter_weaker.
    intros r Hr. apply Z.leb_le in Hr. apply Z.leb_le. lia. }
  split; [exact Heq |].
  intros p Hp. rewrite Heq in Hp. apply filter_In in Hp. exact (proj1 Hp).
Qed.

Lemma X8_get_data_window_nesting_witness :
  exists df1 df2,
    fst (get_data (calm 1794268800) 7 set_back) = inl df1 /\
    fst (get_data (calm 1794268800) 30 set_back) = inl df2 /\
    records df1 = filter (fun p => 1794268800 - 86400 * 7 <=? fst p) (records df2).
Proof.
  destruct (X8_get_data_window_nesting
              (calm 1794268800) set_back
              (mkTable [mkReading 1 1793664000 (PyDec false 1 0);
                        mkReading 2 1793660400 (PyDec false 2 0)] 2)
              7 30 eq_refl eq_refl ltac:(lia) ltac:(lia) eq_refl eq_refl)
    as (df1 & df2 & H1 & H2 & Hrec & _).
  exists df1, df2. repeat split; assumption.
Defined.

(* ===================================================================== *)
(** ** Further properties: writing, then reading *)
(* ===================================================================== *)

Lemma submit_stores :
  forall e form w s u t,
    form_get "usage" form = Some s ->
    PyFloat.float s = Some u ->
    is_nan u = false ->
    insert_fault e = false ->
    db w = Some t ->
    Z.max (seq t) (Sqlite.max_rowid (rows t)) < Sqlite.MAX_ROWID ->
    exists i,
      db (snd (submit e form w)) =
      Some (mkTable (rows t ++ [mkReading i (now e) u]) i).
Proof.
  intros e form w s u t Hform Hfloat Hnan Hfault Hdb Hroom.
  rewrite submit_run, Hform, Hfloat, insert_data_run. cbn [snd].
  unfold insert_outcome. rewrite Hfault, Hdb.
  destruct (insert_usage_ok (now e) u t Hnan Hroom) as [t' Ht'].
  rewrite Ht'. cbn [db]. apply insert_usage_rows in Ht'.
  destruct Ht' as (_ & _ & _ & Hrows).
  exists (seq t'). destruct t' as [rows' seq']. cbn [rows seq] in *.
  subst rows'. reflexivity.
Qed.

Lemma select_since_app :
  forall c l1 l2,
    Sqlite.select_since c (l1 ++ l2) =
    (Sqlite.select_since c l1 ++ Sqlite.select_since c l2)%list.
Proof.
  intros c l1 l2. rewrite !select_since_filter, filter_app, map_app. reflexivity.
Qed.

(** X9. A reading that POST /submit stored comes back from [get_data]
    whenever SQLite can compute the window.  For every [days] that
    Python writes out, with the query not failing, the result after the
    submission is the result before it, followed by the new point
    (clock of the submission, parsed value) when [days] is not
    negative and below SQLite's limit for days, the start [now - days]
    of the window is a date SQLite can represent, and the clock of the
    submission is not before that start; in every other case the result
    is the same as before. *)
Theorem X9_submit_then_get_data :
  forall e1 form w t s u e2 days,
    form_get "usage" form = Some s ->
    PyFloat.float s = Some u ->
    is_nan u = false ->
    insert_fault e1 = false ->
    db w = Some t ->
    Z.max (seq t) (Sqlite.max_rowid (rows t)) < Sqlite.MAX_ROWID ->
    query_fault e2 = None ->
    Z.abs days < 10 ^ int_max_str_digits ->
    exists before after,
      fst (get_data e2 days w) = inl before /\
      fst (get_data e2 days (snd (submit e1 form w))) = inl after /\
      records after =
        (records before ++
         (if ((0 <=? days) && (days <? 5373485)
              && Sqlite.valid_time (now e2 - 86400 * days)
              && (now e2 - 86400 * days <=? now e1))%bool
          then [(now e1, u)] else []))%list.
Proof.
  intros e1 form w t s u e2 days Hform Hfloat Hnan Hfault Hdb Hroom Hq _.
  destruct (submit_stores e1 form w s u t Hform Hfloat Hnan Hfault Hdb Hroom)
    as [i Hdb'].
  rewrite !get_data_run, Hq, Hdb, Hdb'. cbn zeta. cbn [fst rows].
  rewrite datetime_now_days_modifier.
  change Sqlite.SECONDS_PER_DAY with 86400. change Sqlite.DAY_LIMIT with 5373485.
  do 2 eexists. split; [reflexivity |]. split; [reflexivity |].
  cbn [records].
  destruct ((0 <=? days) && (days <? 5373485)
            && Sqlite.valid_time (now e2 - 86400 * days))%bool;
    cbn [Sqlite.select_where andb].
  - rewrite select_since_app. f_equal.
  - reflexivity.
Qed.

Lemma X9_submit_then_get_data_witness :
  exists before after,
    fst (get_data (calm 1793667600) 7 set_back) = inl before /\
    fst (get_data (calm 1793667600) 7
           (snd (submit (calm 1793667000) [("usage", "2.5e1")] set_back)))
      = inl after /\
    records after = (records before ++ [(1793667000, PyDec false 25 0)])%list.
Proof.
  exact (X9_submit_then_get_data
           (calm 1793667000) [("usage", "2.5e1")] set_back
           (mkTable [mkReading 1 1793664000 (PyDec false 1 0);
                     mkReading 2 1793660400 (PyDec false 2 0)] 2)
           "2.5e1" (PyDec false 25 0) (calm 1793667600) 7
           eq_refl eq_refl eq_refl eq_refl eq_refl eq_refl eq_refl
           (seven_digits_formattable 7 eq_refl)).
Defined.

(** X10. After a submission that stored a reading, a request for the
    chart made within seven days, with no fault in the query or in the
    drawing, answers with the success body, status 200 and the path
    [static/usage_plot.png], and the saved chart ends with the new
    point. *)
Theorem X10_submit_then_visualize :
  forall e1 form w t s u e2,
    form_get "usage" form = Some s ->
    PyFloat.float s = Some u ->
    is_nan u = false ->
    insert_fault e1 = false ->
    db w = Some t ->
    Z.max (seq t) (Sqlite.max_rowid (rows t)) < Sqlite.MAX_ROWID ->
    query_fault e2 = None ->
    render_fault e2 = false ->
    Sqlite.valid_time (now e2) = true ->
    Sqlite.valid_time (now e2 - 86400 * 7) = true ->
    now e2 - 86400 * 7 <= now e1 ->
    fst (visualize e2 (snd (submit e1 form w))) =
      inl (mkResponse
             [("status", "success"); ("image_path", "static/usage_plot.png")]
             200) /\
    exists earlier,
      image (snd (visualize e2 (snd (submit e1 form w)))) =
        Some (earlier ++ [(now e1, u)])%list.
Proof.
  intros e1 form w t s u e2 Hform Hfloat Hnan Hfault Hdb Hroom Hq Hr Hnow Hcut Hin.
  destruct (submit_stores e1 form w s u t Hform Hfloat Hnan Hfault Hdb Hroom)
    as [i Hdb'].
  rewrite visualize_run, get_data_run, Hq, Hdb'. cbn zeta.
  change get_data_default_days with 7.
  rewrite (window_bound (now e2) 7 ltac:(lia) Hnow Hcut).
  cbn [Sqlite.select_where rows]. rewrite select_since_app.
  cbn [Sqlite.select_since timestamp]. apply Z.leb_le in Hin. rewrite Hin.
  assert (Hne : forall l : list (Z * pyfloat),
             DataFrame_empty
               (mkDataFrame ["timestamp"; "usage"]
                  (l ++ [point (mkReading i (now e1) u)])%list) = false).
  { intros [| p l]; reflexivity. }
  rewrite Hne, Hr. cbn [fst snd image records].
  split; [reflexivity |]. eexists. reflexivity.
Qed.

Lemma X10_submit_then_visualize_witness :
  fst (visualize (calm 1793667600)
         (snd (submit (calm 1793667000) [("usage", "2.5e1")] started)))
    = inl visualize_success /\
  exists earlier,
    image (snd (visualize (calm 1793667600)
                  (snd (submit (calm 1793667000) [("usage", "2.5e1")] started))))
      = Some (earlier ++ [(1793667000, PyDec false 25 0)])%list.
Proof.
  exact (X10_submit_then_visualize
           (calm 1793667000) [("usage", "2.5e1")] started empty_table
           "2.5e1" (PyDec false 25 0) (calm 1793667600)
           eq_refl eq_refl eq_refl eq_refl eq_refl eq_refl eq_refl eq_refl
           eq_refl eq_refl ltac:(cbn; lia)).
Defined.

(* ===================================================================== *)
(** ** Further properties: what every sequence of requests keeps *)
(* ===================================================================== *)

(** One request leaves the rows as they are or appends one row, stamped
    with the clock of the request and holding a value that is no NaN. *)
Lemma serve_appends :
  forall e q w,
    db (snd (serve e q w)) = db w \/
    exists t t' u,
      db w = Some t /\ db (snd (serve e q w)) = Some t' /\
      is_nan u = false /\
      seq t' = Z.max (seq t) (Sqlite.max_rowid (rows t)) + 1 /\
      rows t' = (rows t ++ [mkReading (seq t') (now e) u])%list.
Proof.
  intros e [form |] w; cbn [serve].
  - destruct (submit_appends e form w)
      as [Hsame | (t & t' & s & u & Hdb & Hdb' & _ & _ & Hnan & Hseq & Hrows)].
    + left. exact Hsame.
    + right. exists t, t', u. repeat split; assumption.
  - left. exact (proj1 (visualize_outcome e w)).
Qed.

Lemma serve_rows_stamped :
  forall e q w,
    stored_rows (snd (serve e q w)) = stored_rows w \/
    exists i u,
      is_nan u = false /\
      stored_rows (snd (serve e q w)) =
        (stored_rows w ++ [mkReading i (now e) u])%list.
Proof.
  intros e q w. unfold stored_rows.
  destruct (serve_appends e q w)
    as [Hsame | (t & t' & u & Hdb & Hdb' & Hnan & _ & Hrows)].
  - left. rewrite Hsame. reflexivity.
  - right. rewrite Hdb, Hdb'. exists (seq t'), u. split; assumption.
Qed.

Lemma timestamps_ascending_snoc :
  forall l r,
    timestamps_ascending l ->
    (forall r', In r' l -> timestamp r' <= timestamp r) ->
    timestamps_ascending (l ++ [r]).
Proof.
  unfold timestamps_ascending. intros l r Hl.
  induction Hl as [| a l Hl IH Ha]; intros Hr; simpl.
  - constructor; constructor.
  - constructor.
    + apply IH. intros r' Hr'. apply Hr. right. exact Hr'.
    + apply Forall_app. split; [exact Ha |].
      constructor; [| constructor]. apply Hr. left. reflexivity.
Qed.

Lemma run_timestamps_ascending :
  forall reqs w,
    timestamps_ascending (stored_rows w) ->
    (forall r x, In r (stored_rows w) -> In x reqs -> timestamp r <= now (fst x)) ->
    clocks_ascending reqs ->
    timestamps_ascending (stored_rows (run reqs w)).
Proof.
  induction reqs as [| [e q] reqs IH]; intros w Hw Hbound Hclk; cbn [run].
  - exact Hw.
  - apply StronglySorted_inv in Hclk. destruct Hclk as [Hclk Hfirst].
    rewrite Forall_forall in Hfirst.
    destruct (serve_rows_stamped e q w) as [Hsame | (i & u & _ & Hrows)].
    + apply IH; [rewrite Hsame; exact Hw | | exact Hclk].
      intros r x Hr Hx. rewrite Hsame in Hr. apply (Hbound r x Hr). right. exact Hx.
    + apply IH; [| | exact Hclk].
      * rewrite Hrows. apply timestamps_ascending_snoc; [exact Hw |].
        intros r' Hr'. cbn [timestamp].
        exact (Hbound r' (e, q) Hr' (or_introl eq_refl)).
      * intros r x Hr Hx. rewrite Hrows in Hr. apply in_app_or in Hr.
        destruct Hr as [Hr | [<- | []]].
        -- apply (Hbound r x Hr). right. exact Hx.
        -- cbn [timestamp]. exact (Hfirst x Hx).
Qed.

Lemma get_data_ascending :
  forall e days w df,
    timestamps_ascending (stored_rows w) ->
    fst (get_data e days w) = inl df ->
    points_ascending (records df).
Proof.
  intros e days w df Hw. rewrite get_data_run. cbn zeta.
  destruct (query_fault e) as [ex |].
  - destruct (isinstance ex cls_sqlite3_Error); cbn [fst]; intros H;
      [| discriminate H].
    inversion H; subst df. constructor.
  - unfold stored_rows in Hw. destruct (db w) as [t |]; cbn [fst]; intros H;
      [| discriminate H].
    inversion H; subst df. cbn [records].
    destruct (Sqlite.datetime_now (now e) (days_modifier days));
      cbn [Sqlite.select_where]; [| constructor].
    apply select_since_ascending. exact Hw.
Qed.

(** X11. When the clock of the server never goes back, neither between
    the requests nor against the readings already stored, the timestamps
    of the table stay in the order of the row ids through every sequence
    of requests, and whatever [get_data] then returns is ascending by
    timestamp. *)
Theorem X11_steady_clock_keeps_order :
  forall reqs w,
    timestamps_ascending (stored_rows w) ->
    (forall r x, In r (stored_rows w) -> In x reqs -> timestamp r <= now (fst x)) ->
    clocks_ascending reqs ->
    timestamps_ascending (stored_rows (run reqs w)) /\
    (forall e days df,
        fst (get_data e days (run reqs w)) = inl df ->
        points_ascending (records df)).
Proof.
  intros reqs w Hw Hbound Hclk.
  pose proof (run_timestamps_ascending reqs w Hw Hbound Hclk) as Hrun.
  split; [exact Hrun |].
  intros e days df Hdf. exact (get_data_ascending e days _ df Hrun Hdf).
Qed.

Lemma X11_steady_clock_keeps_order_witness :
  timestamps_ascending (stored_rows (run steady_day started)).
Proof.
  apply (X11_steady_clock_keeps_order steady_day started).
  - constructor.
  - intros r x [].
  - unfold clocks_ascending, steady_day.
    repeat (constructor; [| repeat (constructor; try (cbn; lia))]).
    constructor.
Defined.

Lemma max_rowid_le :
  forall l m,
    0 <= m -> (forall r, In r l -> id r <= m) -> Sqlite.max_rowid l <= m.
Proof.
  induction l as [| a l IH]; intros m Hm H; simpl.
  - exact Hm.
  - pose proof (H a (or_introl eq_refl)).
    pose proof (IH m Hm (fun r Hr => H r (or_intror Hr))). lia.
Qed.

Lemma first_ids_bound : forall n x, In x (first_ids n) -> x <= Z.of_nat n.
Proof.
  intros n x Hx. unfold first_ids in Hx. apply in_map_iff in Hx.
  destruct Hx as (k & <- & Hk). apply in_seq in Hk. lia.
Qed.

Lemma first_ids_succ :
  forall n, first_ids (S n) = (first_ids n ++ [Z.of_nat n + 1])%list.
Proof.
  intros n. unfold first_ids. rewrite seq_S, map_app. cbn [map].
  repeat f_equal. lia.
Qed.

Lemma serve_numbered :
  forall e q w t,
    db w = Some t -> numbered t ->
    exists t', db (snd (serve e q w)) = Some t' /\ numbered t'.
Proof.
  intros e q w t Hdb [Hids Hseq].
  destruct (serve_appends e q w)
    as [Hsame | (t0 & t' & u & Hdb0 & Hdb' & _ & Hseq' & Hrows)].
  - exists t. rewrite Hsame. split; [exact Hdb | split; assumption].
  - rewrite Hdb in Hdb0. inversion Hdb0; subst t0.
    exists t'. split; [exact Hdb' |].
    assert (Hmax : Sqlite.max_rowid (rows t) <= seq t).
    { apply max_rowid_le; [lia |].
      intros r Hr. rewrite Hseq. apply first_ids_bound. rewrite <- Hids.
      apply in_map. exact Hr. }
    assert (Hnew : seq t' = Z.of_nat (List.length (rows t)) + 1) by lia.
    unfold numbered. rewrite Hrows, length_app, map_app. cbn [List.length map id].
    rewrite Nat.add_1_r, first_ids_succ, Hids, Hnew. split; [reflexivity | lia].
Qed.

(** X12. From a table numbered 1 to n, the table [init_db] creates being
    the case n = 0, every sequence of requests leaves a table numbered 1
    to m: the ids are consecutive and no id is skipped, not even by a
    submission whose insert failed. *)
Theorem X12_ids_are_consecutive :
  forall reqs w t,
    db w = Some t ->
    map id (rows t) = first_ids (List.length (rows t)) ->
    seq t = Z.of_nat (List.length (rows t)) ->
    exists t',
      db (run reqs w) = Some t' /\
      map id (rows t') = first_ids (List.length (rows t')) /\
      seq t' = Z.of_nat (List.length (rows t')).
Proof.
  induction reqs as [| [e q] reqs IH]; intros w t Hdb Hids Hseq; cbn [run].
  - exists t. repeat split; assumption.
  - destruct (serve_numbered e q w t Hdb (conj Hids Hseq)) as (t1 & Hdb1 & Hids1 & Hseq1).
    exact (IH _ t1 Hdb1 Hids1 Hseq1).
Qed.

Lemma X12_ids_are_consecutive_witness :
  exists t',
    db (run steady_day started) = Some t' /\
    map id (rows t') = first_ids (List.length (rows t')) /\
    seq t' = Z.of_nat (List.length (rows t')).
Proof.
  exact (X12_ids_are_consecutive steady_day started empty_table
           eq_refl eq_refl eq_refl).
Defined.

(** X13. No request ever stores a NaN: if no stored reading holds one,
    none does after any sequence of requests. *)
Theorem X13_nan_is_never_stored :
  forall reqs w,
    (forall r, In r (stored_rows w) -> is_nan (usage r) = false) ->
    forall r, In r (stored_rows (run reqs w)) -> is_nan (usage r) = false.
Proof.
  induction reqs as [| [e q] reqs IH]; intros w Hw; cbn [run].
  - exact Hw.
  - apply IH. intros r Hr.
    destruct (serve_rows_stamped e q w) as [Hsame | (i & u & Hnan & Hrows)].
    + rewrite Hsame in Hr. exact (Hw r Hr).
    + rewrite Hrows in Hr. apply in_app_or in Hr.
      destruct Hr as [Hr | [<- | []]]; [exact (Hw r Hr) | exact Hnan].
Qed.

Lemma X13_nan_is_never_stored_witness :
  Forall (fun r => is_nan (usage r) = false) (stored_rows (run steady_day started)).
Proof.
  apply Forall_forall.
  apply (X13_nan_is_never_stored steady_day started).
  intros r [].
Defined.

Lemma visualize_no_insert :
  forall e w,
    insert_attempts (log (snd (visualize e w))) = insert_attempts (log w).
Proof.
  intros e w. rewrite visualize_run, get_data_run.
  change get_data_default_days with 7. cbn zeta.
  destruct (query_fault e) as [ex |].
  - destruct (isinstance ex cls_sqlite3_Error);
      cbn [DataFrame_empty columns fst snd log];
      rewrite !insert_attempts_app; cbn; lia.
  - destruct (db w) as [t |].
    + destruct (DataFrame_empty _); [| destruct (render_fault e)];
        cbn [fst snd log]; rewrite !insert_attempts_app; cbn; lia.
    + cbn [fst snd log]. rewrite !insert_attempts_app. cbn. lia.
Qed.

Lemma serve_insert_attempts :
  forall e q w,
    insert_attempts (log (snd (serve e q w))) =
    (insert_attempts (log w) + (if parses q then 1 else 0))%nat.
Proof.
  intros e [form |] w; cbn [serve parses].
  - rewrite submit_run.
    destruct (form_get "usage" form) as [s |]; [| cbn [snd]; lia].
    destruct (PyFloat.float s) as [u |]; [| cbn [snd]; lia].
    rewrite insert_data_run. cbn [snd].
    destruct (insert_outcome e u (db w)); cbn [log];
      rewrite insert_attempts_app; reflexivity.
  - rewrite visualize_no_insert. lia.
Qed.

Lemma run_insert_attempts :
  forall reqs w,
    insert_attempts (log (run reqs w)) =
    (insert_attempts (log w) + parsing_posts reqs)%nat.
Proof.
  induction reqs as [| [e q] reqs IH]; intros w; cbn [run].
  - unfold parsing_posts. cbn. lia.
  - rewrite IH, serve_insert_attempts. unfold parsing_posts. cbn [filter snd].
    destruct (parses q); cbn [List.length]; lia.
Qed.

(** X14. Writes are never repeated and never made up: along any
    sequence of requests the INSERT statement is executed at most once
    for each POST /submit whose usage field is there and parses, there
    being no retry, and not at all for any other request; so a sequence
    without such a POST executes no INSERT. *)
Theorem X14_no_repeated_insert :
  forall reqs w,
    (insert_attempts (log w) <= insert_attempts (log (run reqs w)))%nat /\
    (insert_attempts (log (run reqs w))
     <= insert_attempts (log w) + parsing_posts reqs)%nat /\
    (parsing_posts reqs = 0%nat ->
     insert_attempts (log (run reqs w)) = insert_attempts (log w)).
Proof.
  intros reqs w. pose proof (run_insert_attempts reqs w) as H.
  split; [lia |]. split; [lia |].
  intros H0. rewrite H0 in H. lia.
Qed.

Lemma X14_no_repeated_insert_witness :
  insert_attempts
    (log (run [(calm 1793664000, GET_visualize);
               (calm 1793664060, POST_submit [("usage", "12 kWh")]);
               (calm 1793664120, POST_submit [("amount", "3.5")])]
              started))
  = insert_attempts (log started).
Proof.
  apply (proj2 (proj2 (X14_no_repeated_insert
                         [(calm 1793664000, GET_visualize);
                          (calm 1793664060, POST_submit [("usage", "12 kWh")]);
                          (calm 1793664120, POST_submit [("amount", "3.5")])]
                         started))).
  reflexivity.
Defined.

(* ===================================================================== *)
(** ** Further properties: whole numbers, and what the page reads *)
(* ===================================================================== *)

Section DecimalTexts.
Import Text PyFloat.

Lemma all_digits_tail :
  forall c s, all_digits (String c s) -> is_digit c = true /\ all_digits s.
Proof.
  intros c s H. split.
  - apply H. left. reflexivity.
  - intros c' Hc'. apply H. right. exact Hc'.
Qed.

Lemma digit_not_underscore : forall c, is_digit c = true -> Ascii.eqb c "_" = false.
Proof.
  intros c H. destruct (Ascii.eqb_spec c "_") as [-> |]; [discriminate H | reflexivity].
Qed.

Lemma strip_underscores_digits :
  forall s p,
    all_digits s -> Ascii.eqb p "_" = false -> strip_underscores p s = Some s.
Proof.
  induction s as [| c s IH]; intros p Hs Hp; simpl.
  - rewrite Hp. reflexivity.
  - apply all_digits_tail in Hs. destruct Hs as [Hc Hs].
    rewrite (digit_not_underscore c Hc), Hp. cbn [andb].
    rewrite (IH c Hs (digit_not_underscore c Hc)). reflexivity.
Qed.

Lemma rstrip_digits : forall s, all_digits s -> rstrip s = s.
Proof.
  induction s as [| c s IH]; intros Hs; simpl.
  - reflexivity.
  - apply all_digits_tail in Hs. destruct Hs as [Hc Hs].
    rewrite (IH Hs). destruct s; [| reflexivity].
    rewrite (digit_not_space c Hc). reflexivity.
Qed.

Lemma strip_digits : forall s, all_digits s -> strip s = s.
Proof.
  intros s Hs. unfold strip. destruct s as [| c s]; [reflexivity |].
  pose proof (all_digits_tail c s Hs) as [Hc _].
  cbn [lstrip]. rewrite (digit_not_space c Hc). apply rstrip_digits. exact Hs.
Qed.

Lemma span_digits_all : forall s, all_digits s -> span_digits s = (s, EmptyString).
Proof.
  induction s as [| c s IH]; intros Hs; simpl.
  - reflexivity.
  - apply all_digits_tail in Hs. destruct Hs as [Hc Hs].
    rewrite Hc, (IH Hs). reflexivity.
Qed.

Lemma append_empty : forall s : string, s ++ "" = s.
Proof. induction s as [| c s IH]; simpl; [reflexivity | rewrite IH; reflexivity]. Qed.

Lemma parse_decimal_digits :
  forall c s,
    all_digits (String c s) ->
    parse_decimal (String c s) = Some (digits_value (String c s), 0).
Proof.
  intros c s Hs. unfold parse_decimal. rewrite (span_digits_all _ Hs).
  cbn [is_empty andb]. rewrite append_empty. reflexivity.
Qed.

Lemma lower_digit_head :
  forall c s,
    is_digit c = true ->
    String.eqb (lower (String c s)) "inf" = false /\
    String.eqb (lower (String c s)) "infinity" = false /\
    String.eqb (lower (String c s)) "nan" = false.
Proof.
  intros c s Hc.
  assert (Hl : to_lower c = c).
  { unfold to_lower. unfold is_digit in Hc. apply andb_true_iff in Hc.
    destruct Hc as [_ Hhi]. apply N.leb_le in Hhi.
    destruct (N.leb_spec 65 (code c)); [lia | reflexivity]. }
  cbn [lower]. rewrite Hl. cbn [String.eqb].
  repeat split;
    (destruct (Ascii.eqb_spec c "i") as [-> |]; [discriminate Hc |]);
    (destruct (Ascii.eqb_spec c "n") as [-> |]; [discriminate Hc |]);
    reflexivity.
Qed.

Lemma digit_no_sign :
  forall c s, is_digit c = true -> split_sign (String c s) = (false, String c s).
Proof.
  intros c s Hc. unfold split_sign.
  destruct c as [[|] [|] [|] [|] [|] [|] [|] [|]]; try reflexivity; discriminate Hc.
Qed.

Lemma float_digits :
  forall c s,
    all_digits (String c s) ->
    float (String c s) = Some (PyDec false (digits_value (String c s)) 0).
Proof.
  intros c s Hs. pose proof (all_digits_tail c s Hs) as [Hc _].
  unfold float. rewrite (strip_underscores_digits _ zero Hs eq_refl).
  rewrite (strip_digits _ Hs), (digit_no_sign c s Hc).
  destruct (lower_digit_head c s Hc) as (H1 & H2 & H3).
  rewrite H1, H2, H3. cbn [orb].
  rewrite (parse_decimal_digits c s Hs). reflexivity.
Qed.

Lemma float_minus_digits :
  forall c s,
    all_digits (String c s) ->
    float (String "-" (String c s)) = Some (PyDec true (digits_value (String c s)) 0).
Proof.
  intros c s Hs. pose proof (all_digits_tail c s Hs) as [Hc Hs'].
  unfold float. cbn [strip_underscores]. cbn [Ascii.eqb Bool.eqb andb is_digit].
  change (Ascii.eqb "-" "_") with false. change (Ascii.eqb zero "_") with false.
  cbn [andb]. rewrite (digit_not_underscore c Hc). cbn [andb].
  rewrite (strip_underscores_digits s c Hs' (digit_not_underscore c Hc)).
  cbn [option_map].
  assert (Hstrip : strip (String "-" (String c s)) = String "-" (String c s)).
  { unfold strip. cbn [lstrip]. change (is_space "-") with false. cbn iota.
    change (rstrip (String "-" (String c s)))
      with (match rstrip (String c s) with
            | EmptyString => String "-" EmptyString
            | t' => String "-" t'
            end).
    rewrite (rstrip_digits _ Hs). reflexivity. }
  rewrite Hstrip. cbn [split_sign].
  destruct (lower_digit_head c s Hc) as (H1 & H2 & H3).
  rewrite H1, H2, H3. cbn [orb].
  rewrite (parse_decimal_digits c s Hs). reflexivity.
Qed.

Lemma digits_value_from_uint :
  forall d acc,
    digits_value_from (Npos acc) (NilEmpty.string_of_uint d) =
    Npos (Pos.of_uint_acc d acc).
Proof.
  induction d; intros acc; cbn [NilEmpty.string_of_uint digits_value_from Pos.of_uint_acc];
    try reflexivity;
    match goal with
    | |- digits_value_from (_ + digit_value ?c)%N _ = Npos (Pos.of_uint_acc _ ?y) =>
        let v := eval vm_compute in (digit_value c) in
        change (digit_value c) with v;
        replace (10 * Npos acc + v)%N with (Npos y) by lia
    end; apply IHd.
Qed.

Lemma digits_value_uint :
  forall d, digits_value (NilEmpty.string_of_uint d) = Pos.of_uint d.
Proof.
  unfold digits_value.
  induction d; cbn [NilEmpty.string_of_uint digits_value_from Pos.of_uint];
    try reflexivity; try exact IHd;
    match goal with
    | |- digits_value_from (_ + digit_value ?c)%N _ = Npos (Pos.of_uint_acc _ ?y) =>
        let v := eval vm_compute in (10 * 0 + digit_value c)%N in
        change (10 * 0 + digit_value c)%N with v
    end; apply digits_value_from_uint.
Qed.

Lemma pos_text :
  forall p, exists c s,
    NilZero.string_of_uint (Pos.to_uint p) = String c s /\
    all_digits (String c s) /\
    digits_value (String c s) = Npos p.
Proof.
  intros p.
  assert (Hnn : Pos.to_uint p <> Decimal.Nil) by apply Unsigned.to_uint_nonnil.
  assert (Hs : NilZero.string_of_uint (Pos.to_uint p)
               = NilEmpty.string_of_uint (Pos.to_uint p)).
  { destruct (Pos.to_uint p); [contradiction | reflexivity ..]. }
  assert (Hd : all_digits (NilEmpty.string_of_uint (Pos.to_uint p))).
  { intros c Hc. exact (uint_string_digits _ _ Hc). }
  assert (Hv : digits_value (NilEmpty.string_of_uint (Pos.to_uint p)) = Npos p).
  { rewrite digits_value_uint. apply Unsigned.of_to. }
  rewrite Hs.
  destruct (NilEmpty.string_of_uint (Pos.to_uint p)) as [| c s] eqn:Heq.
  - exfalso. destruct (Pos.to_uint p); [contradiction | discriminate Heq ..].
  - exists c, s. repeat split; assumption.
Qed.

(** [float] reads the decimal text of an integer as that integer. *)
Lemma float_str_int :
  forall z, float (str_int z) = Some (PyDec (z <? 0) (Z.abs_N z) 0).
Proof.
  intros [| p | p]; unfold str_int; cbn [Z.to_int NilZero.string_of_int].
  - reflexivity.
  - destruct (pos_text p) as (c & s & Hs & Hd & Hv).
    rewrite Hs, (float_digits c s Hd), Hv. reflexivity.
  - destruct (pos_text p) as (c & s & Hs & Hd & Hv).
    rewrite Hs, (float_minus_digits c s Hd), Hv. reflexivity.
Qed.

End DecimalTexts.

(** X15. The decimal text of every integer between -2^53 and 2^53, as
    Python's [str] writes it, is accepted by POST /submit as that
    integer: these are integers a binary64 float holds exactly, so
    nothing is rounded.  With the table in place, no storage fault and
    a row id left, the submission appends one reading whose usage is
    the integer and whose timestamp is the clock of the request. *)
Theorem X15_submit_whole_number :
  forall e w t z,
    exact_in_binary64 z ->
    db w = Some t ->
    insert_fault e = false ->
    Z.max (seq t) (Sqlite.max_rowid (rows t)) < Sqlite.MAX_ROWID ->
    PyFloat.float (str_int z) = Some (PyDec (z <? 0) (Z.abs_N z) 0) /\
    fst (submit e [("usage", str_int z)] w) = inl submit_success /\
    stored_rows (snd (submit e [("usage", str_int z)] w)) =
      (rows t ++
       [mkReading (Z.max (seq t) (Sqlite.max_rowid (rows t)) + 1) (now e)
                  (PyDec (z <? 0) (Z.abs_N z) 0)])%list.
Proof.
  intros e w t z _ Hdb Hfault Hroom.
  pose proof (float_str_int z) as Hf.
  split; [exact Hf |].
  rewrite submit_run. cbn [form_get]. rewrite String.eqb_refl, Hf, insert_data_run.
  split; [reflexivity |]. cbn [snd].
  unfold insert_outcome. rewrite Hfault, Hdb.
  destruct (insert_usage_ok (now e) (PyDec (z <? 0) (Z.abs_N z) 0) t eq_refl Hroom)
    as [t' Ht'].
  rewrite Ht'. unfold stored_rows. cbn [db].
  apply insert_usage_rows in Ht'. destruct Ht' as (_ & _ & Hseq & Hrows).
  rewrite Hrows, Hseq. reflexivity.
Qed.

Lemma X15_submit_whole_number_witness :
  stored_rows (snd (submit (calm 1793664000) [("usage", str_int (-1250))] started))
  = [mkReading 1 1793664000 (PyDec true 1250 0)].
Proof.
  exact (proj2 (proj2 (X15_submit_whole_number
                         (calm 1793664000) started empty_table (-1250)
                         ltac:(unfold exact_in_binary64; cbn; lia)
                         eq_refl eq_refl eq_refl))).
Defined.

(** X16. The script of the page reads [data.message] after a
    submission, and after a request for the chart [data.image_path] when
    [data.status] is [success] and [data.message] otherwise.  Every
    answer of the two routes has what the script reads: a submission's
    answer has a message; a chart answer has status [success], code 200
    and the image path, or another status, code 400 or 500, and a
    message. *)
Theorem X16_answers_have_what_the_page_reads :
  forall e w,
    (forall form r,
        fst (submit e form w) = inl r ->
        exists m, json_get "message" (body r) = Some m) /\
    (forall r,
        fst (visualize e w) = inl r ->
        (json_get "status" (body r) = Some "success" /\
         status_code r = 200 /\
         json_get "image_path" (body r) = Some "static/usage_plot.png") \/
        (json_get "status" (body r) = Some "error" /\
         (status_code r = 400 \/ status_code r = 500) /\
         exists m, json_get "message" (body r) = Some m)).
Proof.
  intros e w. split.
  - intros form r. rewrite submit_run.
    destruct (form_get "usage" form) as [s |]; [| discriminate].
    destruct (PyFloat.float s); cbn [fst]; intros H; inversion H; subst r;
      eexists; reflexivity.
  - intros r. rewrite visualize_run.
    destruct (get_data e get_data_default_days w) as [[df | ex] w1].
    + destruct (DataFrame_empty df); [| destruct (render_fault e)];
        cbn [fst]; intros H; inversion H; subst r.
      * right. split; [reflexivity |]. split; [left; reflexivity |].
        eexists. reflexivity.
      * right. split; [reflexivity |]. split; [right; reflexivity |].
        eexists. reflexivity.
      * left. repeat split; reflexivity.
    + cbn [fst]. intros H; inversion H; subst r.
      right. split; [reflexivity |]. split; [right; reflexivity |].
      eexists. reflexivity.
Qed.

Lemma X16_answers_have_what_the_page_reads_witness :
  exists m,
    json_get "message" (body submit_invalid) = Some m.
Proof.
  exact (proj1 (X16_answers_have_what_the_page_reads (calm 1793664000) started)
           [("usage", "12 kWh")] submit_invalid eq_refl).
Defined.

(* ===================================================================== *)
(** ** Further properties: from the page to the form *)
(* ===================================================================== *)

Section PageForm.
Import UrlForm.

Lemma free_of_cons :
  forall c x s, free_of c (String x s) -> x <> c /\ free_of c s.
Proof.
  unfold free_of. intros c x s H. split.
  - intros ->. apply H. left. reflexivity.
  - intros Hin. apply H. right. exact Hin.
Qed.

Lemma plus_to_space_free :
  forall s, free_of "+" s -> plus_to_space s = s.
Proof.
  induction s as [| x s IH]; intros H; simpl.
  - reflexivity.
  - apply free_of_cons in H. destruct H as [Hx Hs].
    destruct (Ascii.eqb_spec x "+") as [-> | _]; [contradiction |].
    rewrite (IH Hs). reflexivity.
Qed.

Lemma plus_to_space_keeps_free_of_percent :
  forall s, free_of "%" s -> free_of "%" (plus_to_space s).
Proof.
  induction s as [| x s IH]; intros H.
  - exact H.
  - apply free_of_cons in H. destruct H as [Hx Hs].
    unfold free_of. simpl. intros [Hin | Hin].
    + destruct (Ascii.eqb_spec x "+"); [discriminate Hin | congruence].
    + exact (IH Hs Hin).
Qed.

Lemma unquote_free :
  forall s, free_of "%" s -> unquote s = Some s.
Proof.
  induction s as [| x s IH]; intros H; simpl.
  - reflexivity.
  - apply free_of_cons in H. destruct H as [Hx Hs].
    destruct (Ascii.eqb_spec x "%") as [-> | _]; [contradiction |].
    rewrite (IH Hs). reflexivity.
Qed.

Lemma decode_free :
  forall s, free_of "%" s -> decode s = Some (plus_to_space s).
Proof.
  intros s H. unfold decode. apply unquote_free.
  apply plus_to_space_keeps_free_of_percent. exact H.
Qed.

(** The pieces between separators: the first is the text before the
    first separator. *)
Lemma split_on_head :
  forall sep s,
    exists rest, split_on sep s = fst (split_first sep s) :: rest.
Proof.
  intros sep s. induction s as [| x s IH]; simpl.
  - exists []. reflexivity.
  - destruct (Ascii.eqb x sep).
    + eexists. reflexivity.
    + destruct IH as [rest Hrest]. rewrite Hrest.
      destruct (split_first sep s) as [k v]. exists rest. reflexivity.
Qed.

Lemma split_on_free :
  forall c sep s p,
    free_of c s -> In p (split_on sep s) -> free_of c p.
Proof.
  intros c sep s. induction s as [| x s IH]; intros p Hs Hp; simpl in Hp.
  - destruct Hp as [<- | []]. exact Hs.
  - apply free_of_cons in Hs. destruct Hs as [Hx Hs].
    destruct (Ascii.eqb x sep).
    + destruct Hp as [<- | Hp]; [intros [] | exact (IH p Hs Hp)].
    + destruct (split_on sep s) as [| q qs] eqn:Hq.
      * destruct Hp as [<- | []]. unfold free_of. simpl.
        intros [Heq | []]. congruence.
      * destruct Hp as [<- | Hp].
        -- pose proof (IH q Hs (or_introl eq_refl)) as Hfq.
           unfold free_of in *. simpl. intros [Heq | Hin]; [congruence | auto].
        -- apply (IH p Hs). right. exact Hp.
Qed.

Lemma split_first_free :
  forall c sep s,
    free_of c s ->
    free_of c (fst (split_first sep s)) /\
    free_of c (match snd (split_first sep s) with
               | Some v => v
               | None => EmptyString
               end).
Proof.
  intros c sep s. induction s as [| x s IH]; intros Hs; simpl.
  - split; intros [].
  - apply free_of_cons in Hs. destruct Hs as [Hx Hs].
    destruct (Ascii.eqb x sep).
    + split; [intros [] | exact Hs].
    + destruct (IH Hs) as [Hk Hv].
      destruct (split_first sep s) as [k v]. cbn [fst snd] in *.
      split; [| exact Hv].
      unfold free_of in *. simpl. intros [Heq | Hin]; [congruence | auto].
Qed.

Lemma parse_pairs_free :
  forall pieces,
    (forall p, In p pieces -> free_of "%" p) ->
    exists fields, parse_pairs pieces = Some fields.
Proof.
  induction pieces as [| p rest IH]; intros H; simpl.
  - eexists. reflexivity.
  - destruct (IH (fun q Hq => H q (or_intror Hq))) as [fields Hf].
    destruct (Text.is_empty p); [exists fields; exact Hf |].
    destruct (split_first_free "%" "=" p (H p (or_introl eq_refl))) as [Hk Hv].
    destruct (split_first "=" p) as [k v]. cbn [fst snd] in *.
    rewrite (decode_free k Hk), (decode_free _ Hv), Hf.
    eexists. reflexivity.
Qed.

Lemma page_body_pieces :
  forall typed,
    exists rest,
      split_on "&" (page_body typed) =
      ("usage=" ++ fst (split_first "&" typed)) :: rest.
Proof.
  intros typed. destruct (split_on_head "&" typed) as [rest Hrest].
  exists rest. unfold page_body. simpl. rewrite Hrest. reflexivity.
Qed.

(** The form the server reads from the body of the page, for a typed
    text without [%]: its first field is [usage], holding the text up to
    the first [&] with every [+] turned into a blank. *)
Lemma page_form :
  forall typed,
    free_of "%" typed ->
    exists fields,
      parse_qsl (page_body typed) =
      Some (("usage", plus_to_space (fst (split_first "&" typed))) :: fields).
Proof.
  intros typed Hfree. unfold parse_qsl.
  assert (Hbody : free_of "%" (page_body typed)).
  { unfold free_of, page_body. simpl.
    intros [H | [H | [H | [H | [H | [H | H]]]]]]; try discriminate H.
    exact (Hfree H). }
  pose proof (split_on_free "%" "&" (page_body typed)) as Hpieces.
  destruct (page_body_pieces typed) as [rest Hrest].
  rewrite Hrest in *.
  destruct (parse_pairs_free rest
              (fun p Hp => Hpieces p Hbody (or_intror Hp))) as [fields Hf].
  exists fields. cbn [parse_pairs append Text.is_empty].
  assert (Hsf : split_first "=" ("usage=" ++ fst (split_first "&" typed))
                = ("usage", Some (fst (split_first "&" typed)))).
  { reflexivity. }
  cbn [append] in Hsf. rewrite Hsf.
  rewrite (decode_free _ (proj1 (split_first_free "%" "&" typed Hfree))), Hf.
  reflexivity.
Qed.

Lemma split_first_free_sep :
  forall sep s, free_of sep s -> fst (split_first sep s) = s.
Proof.
  intros sep s. induction s as [| x s IH]; intros H; simpl.
  - reflexivity.
  - apply free_of_cons in H. destruct H as [Hx Hs].
    destruct (Ascii.eqb_spec x sep) as [-> | _]; [contradiction |].
    specialize (IH Hs). destruct (split_first sep s) as [k v]. cbn [fst] in *.
    rewrite IH. reflexivity.
Qed.

Lemma split_on_free_sep :
  forall sep s, free_of sep s -> split_on sep s = [s].
Proof.
  intros sep s. induction s as [| x s IH]; intros H; simpl.
  - reflexivity.
  - apply free_of_cons in H. destruct H as [Hx Hs].
    destruct (Ascii.eqb_spec x sep) as [-> | _]; [contradiction |].
    rewrite (IH Hs). reflexivity.
Qed.

End PageForm.

(** X17. What is typed into the page arrives unchanged when it holds
    none of [&], [+] and [%]: the body [usage=<text>] that the script
    sends is read by the server as the single field [usage] with that
    text, so the submission is served exactly as [submit] serves that
    text. *)
Theorem X17_page_text_round_trip :
  forall typed,
    free_of "&" typed -> free_of "+" typed -> free_of "%" typed ->
    UrlForm.parse_qsl (UrlForm.page_body typed) = Some [("usage", typed)].
Proof.
  intros typed Hamp Hplus Hpct.
  unfold UrlForm.parse_qsl.
  assert (Hbody : free_of "&" (UrlForm.page_body typed)).
  { unfold free_of, UrlForm.page_body. simpl.
    intros [H | [H | [H | [H | [H | [H | H]]]]]]; try discriminate H.
    exact (Hamp H). }
  rewrite (split_on_free_sep "&" _ Hbody).
  unfold UrlForm.page_body. cbn [UrlForm.parse_pairs append Text.is_empty].
  assert (Hsf : UrlForm.split_first "=" ("usage=" ++ typed) = ("usage", Some typed)).
  { reflexivity. }
  cbn [append] in Hsf. rewrite Hsf.
  rewrite (decode_free typed Hpct), (plus_to_space_free typed Hplus).
  reflexivity.
Qed.

Lemma X17_page_text_round_trip_witness :
  UrlForm.parse_qsl (UrlForm.page_body "-12.5e-3") = Some [("usage", "-12.5e-3")].
Proof.
  apply (X17_page_text_round_trip "-12.5e-3");
    unfold free_of; cbn;
    intros H; repeat (destruct H as [H | H]; [discriminate H |]); exact H.
Defined.

(** X18. The script does not encode what is typed, so for a text
    without [%] the server reads as usage only the part before the first
    [&], with every [+] turned into a blank, and serves the submission
    as [submit] serves that text.  A number written with [+], such as an
    exponent [e+5], therefore does not arrive as it was typed. *)
Theorem X18_page_text_is_not_encoded :
  forall e w typed,
    free_of "%" typed ->
    exists form,
      UrlForm.parse_qsl (UrlForm.page_body typed) = Some form /\
      form_get "usage" form =
        Some (UrlForm.plus_to_space (fst (UrlForm.split_first "&" typed))) /\
      submit e form w =
        submit e [("usage",
                   UrlForm.plus_to_space (fst (UrlForm.split_first "&" typed)))] w.
Proof.
  intros e w typed Hfree.
  destruct (page_form typed Hfree) as [fields Hform].
  eexists. split; [exact Hform |].
  split; [reflexivity |].
  rewrite !submit_run. reflexivity.
Qed.

Lemma X18_page_text_is_not_encoded_witness :
  exists form,
    UrlForm.parse_qsl (UrlForm.page_body "1e+5") = Some form /\
    form_get "usage" form = Some "1e 5" /\
    submit (calm 1793664000) form started = (inl submit_invalid, started).
Proof.
  destruct (X18_page_text_is_not_encoded (calm 1793664000) started "1e+5")
    as (form & Hparse & Hget & Hsub).
  - unfold free_of. cbn.
    intros H; repeat (destruct H as [H | H]; [discriminate H |]); exact H.
  - exists form. split; [exact Hparse |]. split; [exact Hget |].
    rewrite Hsub. reflexivity.
Defined.
